(** * Weekly habit tracker: the client-side model of [HabitTracker]

    A shallow embedding of the React component in [src/unnamed/part_000]
    (the page component of the habit tracker), of the tables declared in
    [SUPABASE_SETUP.md] and [src/types/database.ts], and of the JavaScript
    built-ins the component relies on ([Date], [String.prototype.trim],
    [Array.prototype.join], [Math.round]).

    Strings are sequences of code units below 256; numbers that the
    component only ever uses as integers are [Z]; the quotients it rounds
    are exact rationals ([Q]), and the one computation whose rounding in
    binary floating point matters is also given in doubles. *)

From stdpp Require Import gmap strings list fin_maps pretty sorting.
From Stdlib Require Import Ascii ZArith QArith Qround Lia Floats Uint63.

Local Open Scope Z_scope.

(** ** JavaScript built-ins *)

Module Js.

(** [WhiteSpace] and [LineTerminator] code units below 256: TAB, LF, VT,
    FF, CR, SP and NBSP. *)
Definition is_white (c : ascii) : bool :=
  let n := nat_of_ascii c in
  ((9 <=? n)%nat && (n <=? 13)%nat) || (n =? 32)%nat || (n =? 160)%nat.

Fixpoint trimStart (s : string) : string :=
  match s with
  | String c s' => if is_white c then trimStart s' else s
  | EmptyString => EmptyString
  end.

Definition trimEnd (s : string) : string :=
  String.rev (trimStart (String.rev s)).

(** [s.trim()] *)
Definition trim (s : string) : string := trimEnd (trimStart s).

(** [xs.join(sep)] on an array of strings. *)
Fixpoint join (sep : string) (xs : list string) : string :=
  match xs with
  | [] => ""
  | [x] => x
  | x :: rest => x +:+ sep +:+ join sep rest
  end.

(** [Math.round]: the nearest integer, ties towards plus infinity. *)
Definition Math_round (q : Q) : Z := Qfloor (q + (1 # 2))%Q.

(** [String(n)] for an integer [n], as array [join] and template
    literals render it. *)
Definition Number_toString (n : Z) : string := pretty n.

(** An integer as a Number (a double); exact below 2^53 in magnitude. *)
Definition Number_of_Z (n : Z) : float :=
  if 0 <=? n then PrimFloat.of_uint63 (Uint63.of_Z n)
  else PrimFloat.opp (PrimFloat.of_uint63 (Uint63.of_Z (- n))).

(** [Math.floor] of a finite double, as an integer. *)
Definition Math_floor (x : float) : Z :=
  match Prim2SF x with
  | S754_finite s m e =>
      let v := if s then Z.neg m else Z.pos m in
      if 0 <=? e then v * 2 ^ e else v / 2 ^ (- e)
  | _ => 0
  end.

(** [Math.round] of a finite double: the nearest integer, ties towards
    plus infinity. The fraction [x - floor x] is exact in doubles. *)
Definition Math_round_double (x : float) : Z :=
  let f := Math_floor x in
  if PrimFloat.leb 0.5%float (PrimFloat.sub x (Number_of_Z f)) then f + 1 else f.

End Js.

(** ** [Date]

    A [Date] holds a time value: milliseconds since the epoch in UTC, or
    NaN ([None]) for an invalid date. The local time zone is a standard
    offset with periods of daylight saving time. The calendar functions are
    those of the language definition ([Day], [WeekDay], [MakeDay],
    [LocalTZA], ...), with the civil calendar computed era by era (eras of
    400 years, 146097 days). *)

Module JsDate.

Definition t := option Z.

Definition msPerDay : Z := 86400000.
Definition msPerHour : Z := 3600000.

Definition Day (tv : Z) : Z := tv / msPerDay.
Definition TimeWithinDay (tv : Z) : Z := tv mod msPerDay.

(** Day 0 is Thursday, 1 January 1970; 0 is Sunday. *)
Definition WeekDay (tv : Z) : Z := (Day tv + 4) mod 7.

(** Year, month (1..12) and day of the month (1..31) of a day number. *)
Definition civil_of_day (z : Z) : Z * Z * Z :=
  let z := z + 719468 in
  let era := z / 146097 in
  let doe := z - era * 146097 in
  let yoe := (doe - doe / 1460 + doe / 36524 - doe / 146096) / 365 in
  let y := yoe + era * 400 in
  let doy := doe - (365 * yoe + yoe / 4 - yoe / 100) in
  let mp := (5 * doy + 2) / 153 in
  let d := doy - (153 * mp + 2) / 5 + 1 in
  let m := if mp <? 10 then mp + 3 else mp - 9 in
  (if m <=? 2 then y + 1 else y, m, d).

(** [MakeDay(year, month, 1) + date - 1] with [month] in 1..12: the day
    number of a calendar date, where [date] may lie outside the month. *)
Definition day_of_civil (y m d : Z) : Z :=
  let y := if m <=? 2 then y - 1 else y in
  let era := y / 400 in
  let yoe := y - era * 400 in
  let doy := (153 * (if 2 <? m then m - 3 else m + 9) + 2) / 5 + d - 1 in
  let doe := yoe * 365 + yoe / 4 - yoe / 100 + doy in
  era * 146097 + doe - 719468.

Definition YearFromTime (tv : Z) : Z := (civil_of_day (Day tv)).1.1.
Definition MonthFromTime (tv : Z) : Z := (civil_of_day (Day tv)).1.2.
Definition DateFromTime (tv : Z) : Z := (civil_of_day (Day tv)).2.

(** A time zone: the standard offset of its local time from UTC
    (milliseconds east), and when daylight saving time, one hour ahead of
    standard time, is in force. That is asked of a UTC time value, and of a
    local time value; for a local time that the clocks skip or repeat the
    zone says which reading it takes. *)
Record Zone := mkZone {
  standard : Z;
  summerAtUTC : Z → bool;
  summerAtLocal : Z → bool
}.

(** A zone that never changes its clocks. *)
Definition fixed (offset : Z) : Zone := mkZone offset (λ _, false) (λ _, false).

(** [LocalTZA(t, isUTC)] *)
Definition LocalTZA (zone : Zone) (t : Z) (isUTC : bool) : Z :=
  standard zone
  + (if (if isUTC then summerAtUTC zone t else summerAtLocal zone t)
     then msPerHour else 0).

Definition LocalTime (zone : Zone) (tv : Z) : Z := tv + LocalTZA zone tv true.
Definition UTC (zone : Zone) (lt : Z) : Z := lt - LocalTZA zone lt false.

(** [d.getDay()] and [d.getDate()]: local time; NaN for an invalid date. *)
Definition getDay (zone : Zone) (d : t) : option Z :=
  tv ← d; Some (WeekDay (LocalTime zone tv)).
Definition getDate (zone : Zone) (d : t) : option Z :=
  tv ← d; Some (DateFromTime (LocalTime zone tv)).

(** [d.setDate(dt)]: the day of the month is replaced in local time, the
    time within the day is kept, and the result is taken back to UTC with
    the offset that holds at the new local time. *)
Definition setDate (zone : Zone) (d : t) (dt : option Z) : t :=
  tv ← d; n ← dt;
  let lt := LocalTime zone tv in
  let day := day_of_civil (YearFromTime lt) (MonthFromTime lt) n in
  Some (UTC zone (day * msPerDay + TimeWithinDay lt)).

(** Decimal digits, left-padded with zeros to a fixed width. *)
Definition digit (n : Z) : ascii := ascii_of_nat (48 + Z.to_nat (n mod 10)).
Fixpoint digits (width : nat) (n : Z) (acc : string) : string :=
  match width with
  | O => acc
  | S w => digits w (n / 10) (String (digit n) acc)
  end.

(** The date part of the ISO format: [YYYY-MM-DD], the year with a sign
    and six digits outside 0..9999. *)
Definition isoDate (day : Z) : string :=
  let '(y, m, d) := civil_of_day day in
  let year :=
    if (0 <=? y) && (y <=? 9999) then digits 4 y ""
    else if y <? 0 then "-" +:+ digits 6 (- y) ""
    else "+" +:+ digits 6 y "" in
  year +:+ "-" +:+ digits 2 m "" +:+ "-" +:+ digits 2 d "".

Definition digit_value (c : ascii) : option Z :=
  Z.of_nat <$> Ascii.is_nat c.

(** Midnight UTC of a calendar date; NaN when there is no such date. *)
Definition dateAt (y m d : Z) : t :=
  let day := day_of_civil y m d in
  if decide (civil_of_day day = (y, m, d)) then Some (day * msPerDay) else None.

(** The date-only form [YYYY-MM-DD]. *)
Definition parseYear4 (s : string) : t :=
  match s with
  | String y1 (String y2 (String y3 (String y4 (String "-"
      (String m1 (String m2 (String "-" (String d1 (String d2 ""))))))))) =>
      a ← digit_value y1; b ← digit_value y2;
      c ← digit_value y3; e ← digit_value y4;
      f ← digit_value m1; g ← digit_value m2;
      h ← digit_value d1; i ← digit_value d2;
      dateAt (1000 * a + 100 * b + 10 * c + e) (10 * f + g) (10 * h + i)
  | _ => None
  end.

(** The date-only form with an expanded year, [+YYYYYY-MM-DD] or
    [-YYYYYY-MM-DD]; [-000000] is no year. *)
Definition parseYear6 (s : string) : t :=
  match s with
  | String sg (String y1 (String y2 (String y3 (String y4 (String y5 (String y6
      (String "-" (String m1 (String m2 (String "-"
      (String d1 (String d2 "")))))))))))) =>
      sign ← (if decide (sg = "+"%char) then Some 1
              else if decide (sg = "-"%char) then Some (-1) else None);
      a ← digit_value y1; b ← digit_value y2; c ← digit_value y3;
      e ← digit_value y4; j ← digit_value y5; k ← digit_value y6;
      f ← digit_value m1; g ← digit_value m2;
      h ← digit_value d1; i ← digit_value d2;
      let y := 100000 * a + 10000 * b + 1000 * c + 100 * e + 10 * j + k in
      if decide (sign = -1 ∧ y = 0) then None
      else dateAt (sign * y) (10 * f + g) (10 * h + i)
  | _ => None
  end.

(** [new Date(s)] for the date-only ISO forms [YYYY-MM-DD] and
    [±YYYYYY-MM-DD], which are read as midnight UTC; the component stores
    and reads back dates of these forms only. Any other string gives an
    invalid date here, as the empty string does in the language; the
    language also reads [YYYY], [YYYY-MM] and the date-time forms, and
    leaves further formats to the implementation. *)
Definition parse (s : string) : t :=
  match s with
  | String c _ =>
      if decide (c = "+"%char ∨ c = "-"%char) then parseYear6 s else parseYear4 s
  | EmptyString => None
  end.

End JsDate.

(** A number used as a zone is the zone of that constant offset. *)
Coercion JsDate.fixed : Z >-> JsDate.Zone.

(** ** Completions: a value, or a thrown exception *)

Inductive Exn :=
  | RangeError                      (* [toISOString] of an invalid date *)
  | PostgrestError (message : string) (* an [error] of a response, rethrown *)
  | FetchRejected.                  (* a remote call whose promise rejects *)

Inductive Completion (A : Type) :=
  | Normal (a : A)
  | Thrown (e : Exn).
Arguments Normal {A} a.
Arguments Thrown {A} e.

Module JsDateIso.
(** [d.toISOString().split('T')[0]]: the date part of the UTC rendering;
    [toISOString] throws a [RangeError] on an invalid date. *)
Definition toISODate (d : JsDate.t) : Completion string :=
  match d with
  | Some tv => Normal (JsDate.isoDate (JsDate.Day tv))
  | None => Thrown RangeError
  end.
End JsDateIso.

(** Arithmetic on numbers that may be NaN. *)
Definition num_add (a b : option Z) : option Z := x ← a; y ← b; Some (x + y).
Definition num_sub (a b : option Z) : option Z := x ← a; y ← b; Some (x - y).

(** ** Data model *)

(** The part of the auth provider's [User] the component reads. *)
Module User.
Record t := mk { id : string; email : string }.
End User.

(** A row of [habits]; the component's [Habit] interface names its first
    three columns. *)
Module Habit.
Record t := mk {
  id : string;
  name : string;
  user_id : string;
  created_at : Z
}.
End Habit.

(** A row of [habit_entries]. *)
Module Entry.
Record t := mk {
  id : string;
  habit_id : string;
  user_id : string;
  date : string;
  completed : bool;
  created_at : Z
}.
End Entry.

(** [interface HabitTracker { [habitId]: { [day]: boolean } }] *)
Abbreviation HabitTracker := (gmap string (gmap string bool)).

Definition DAYS : list string :=
  ["Monday"; "Tuesday"; "Wednesday"; "Thursday"; "Friday"; "Saturday"; "Sunday"].

(** The component's [useState] cells. *)
Record AppState := mkApp {
  user : option User.t;
  loading : bool;
  isOnboarding : bool;
  habits : list Habit.t;
  tracker : HabitTracker;
  weekStartDate : string;
  habitInputs : list string
}.

Definition initialState : AppState :=
  {| user := None; loading := true; isOnboarding := true; habits := [];
     tracker := ∅; weekStartDate := ""; habitInputs := [""; ""; ""; ""; ""] |}.

(** ** The remote tables

    [habits] and [habit_entries] as [SUPABASE_SETUP.md] creates them:
    generated [id] and [created_at] columns, [habit_entries.habit_id]
    referencing [habits.id] with ON DELETE CASCADE, and
    UNIQUE(habit_id, user_id, date). Identifiers are opaque strings;
    [gen_random_uuid()] is a counter. *)

(** What a request resolves to: [{ data, error }]. *)
Record Response (A : Type) := mkResponse {
  data : option A;
  error : option string
}.
Arguments mkResponse {A} data error.
Arguments data {A} r.
Arguments error {A} r.

(** The [Insert] shapes of [database.ts], with the columns the component
    supplies. *)
Module HabitInsert.
Record t := mk { user_id : string; name : string }.
End HabitInsert.

Module EntryInsert.
Record t := mk {
  habit_id : string;
  user_id : string;
  date : string;
  completed : bool
}.
End EntryInsert.

Module Db.

Record t := mk {
  habits : list Habit.t;
  habit_entries : list Entry.t;
  next_uuid : N
}.

Definition empty : t := mk [] [] 0.

Definition gen_random_uuid (n : N) : string := "uuid-" +:+ pretty n.

Definition ok {A} (a : A) : Response A := mkResponse (Some a) None.
Definition no_content {A} : Response A := mkResponse None None.
Definition failed {A} (message : string) : Response A :=
  mkResponse None (Some message).

(** ORDER BY created_at ASC, rows of equal time in table order. *)
Fixpoint insert_by_created_at (h : Habit.t) (l : list Habit.t) : list Habit.t :=
  match l with
  | [] => [h]
  | x :: l' =>
      if Habit.created_at h <? Habit.created_at x then h :: l
      else x :: insert_by_created_at h l'
  end.
Definition order_by_created_at (l : list Habit.t) : list Habit.t :=
  foldl (λ acc h, insert_by_created_at h acc) [] l.

(** Comparison in a DATE column. *)
Definition date_le (s1 s2 : string) : Prop :=
  match JsDate.parse s1, JsDate.parse s2 with
  | Some a, Some b => a ≤ b
  | _, _ => False
  end.
Global Instance date_le_dec : RelDecision date_le.
Proof.
  intros s1 s2. unfold date_le.
  destruct (JsDate.parse s1), (JsDate.parse s2); apply _.
Defined.

(** [from('habits').select('*').eq('user_id', uid).order('created_at')] *)
Definition select_habits (uid : string) (db : t) : Response (list Habit.t) * t :=
  (ok (order_by_created_at (filter (λ h, Habit.user_id h = uid) (habits db))), db).

(** [from('habit_entries').select('*').eq('user_id', uid)
      .gte('date', lo).lte('date', hi)] *)
Definition select_entries (uid lo hi : string) (db : t)
  : Response (list Entry.t) * t :=
  match JsDate.parse lo, JsDate.parse hi with
  | Some _, Some _ =>
      (ok (filter (λ e, Entry.user_id e = uid ∧ date_le lo (Entry.date e)
                        ∧ date_le (Entry.date e) hi) (habit_entries db)), db)
  | _, _ => (failed "invalid input syntax for type date", db)
  end.

Fixpoint new_habits (now : Z) (n : N) (rows : list HabitInsert.t) : list Habit.t :=
  match rows with
  | [] => []
  | r :: rows' =>
      Habit.mk (gen_random_uuid n) (HabitInsert.name r) (HabitInsert.user_id r) now
      :: new_habits now (N.succ n) rows'
  end.

(** [from('habits').insert(rows).select()]: one batch, the inserted rows
    are returned. *)
Definition insert_habits (now : Z) (rows : list HabitInsert.t) (db : t)
  : Response (list Habit.t) * t :=
  let created := new_habits now (next_uuid db) rows in
  (ok created,
   mk (habits db ++ created) (habit_entries db)
      (next_uuid db + N.of_nat (length rows))%N).

Definition same_key (habit_id user_id date : string) (e : Entry.t) : Prop :=
  Entry.habit_id e = habit_id ∧ Entry.user_id e = user_id ∧ Entry.date e = date.
Global Instance same_key_dec h u d e : Decision (same_key h u d e).
Proof. unfold same_key. apply _. Defined.

(** [from('habit_entries').insert(row)] *)
Definition insert_entry (now : Z) (r : EntryInsert.t) (db : t)
  : Response (list Entry.t) * t :=
  if decide (EntryInsert.habit_id r ∈ Habit.id <$> habits db) then
    if decide (Exists (same_key (EntryInsert.habit_id r) (EntryInsert.user_id r)
                                (EntryInsert.date r)) (habit_entries db))
    then (failed "duplicate key value violates unique constraint", db)
    else
      (no_content,
       mk (habits db)
          (habit_entries db ++
           [Entry.mk (gen_random_uuid (next_uuid db)) (EntryInsert.habit_id r)
                     (EntryInsert.user_id r) (EntryInsert.date r)
                     (EntryInsert.completed r) now])
          (N.succ (next_uuid db)))
  else (failed "violates foreign key constraint", db).

(** [from('habit_entries').delete().eq('habit_id', h).eq('user_id', u)
      .eq('date', d)] *)
Definition delete_entry (h u d : string) (db : t) : Response (list Entry.t) * t :=
  (no_content,
   mk (habits db) (filter (λ e, ¬ same_key h u d e) (habit_entries db))
      (next_uuid db)).

(** [from('habit_entries').delete().eq('user_id', u)] *)
Definition delete_entries_of_user (u : string) (db : t)
  : Response (list Entry.t) * t :=
  (no_content,
   mk (habits db) (filter (λ e, Entry.user_id e ≠ u) (habit_entries db))
      (next_uuid db)).

(** [from('habits').delete().eq('user_id', u)]; the entries of the deleted
    habits go with them. *)
Definition delete_habits_of_user (u : string) (db : t)
  : Response (list Habit.t) * t :=
  let gone := Habit.id <$> filter (λ h, Habit.user_id h = u) (habits db) in
  (no_content,
   mk (filter (λ h, Habit.user_id h ≠ u) (habits db))
      (filter (λ e, Entry.habit_id e ∉ gone) (habit_entries db))
      (next_uuid db)).

End Db.

(** ** The world a handler runs in

    The component's state, the remote tables, what was sent and shown so
    far, the clock and the time zone. [faults] says how the transport
    treats the coming remote calls, first call first. *)

Inductive Request :=
  | SelectHabits (user_id : string)
  | SelectEntries (user_id lo hi : string)
  | InsertHabits (rows : list HabitInsert.t)
  | InsertEntry (row : EntryInsert.t)
  | DeleteEntry (habit_id user_id date : string)
  | DeleteEntriesOfUser (user_id : string)
  | DeleteHabitsOfUser (user_id : string)
  | AuthSignOut.

Inductive Fault :=
  | NoFault                               (* the request reaches the tables *)
  | ResolvesWithError (message : string)  (* resolves to [{ data: null, error }] *)
  | Rejects.                              (* the promise rejects *)

Record World := mkWorld {
  app : AppState;
  db : Db.t;
  issued : list Request;
  console : list string;
  alerts : list string;
  faults : list Fault;
  now : Z;
  tza : JsDate.Zone
}.

Definition M (A : Type) : Type := World → Completion A * World.

Global Instance M_ret : MRet M := λ A a w, (Normal a, w).
Global Instance M_bind : MBind M := λ A B f m w,
  match m w with
  | (Normal a, w') => f a w'
  | (Thrown e, w') => (Thrown e, w')
  end.

Global Instance Completion_ret : MRet Completion := λ A a, Normal a.
Global Instance Completion_bind : MBind Completion := λ A B f c,
  match c with
  | Normal a => f a
  | Thrown e => Thrown e
  end.

Definition throw {A} (e : Exn) : M A := λ w, (Thrown e, w).

Definition lift {A} (c : Completion A) : M A := λ w, (c, w).

(** [try { body } catch (error) { handler }] *)
Definition try_catch {A} (body : M A) (handler : Exn → M A) : M A := λ w,
  match body w with
  | (Normal a, w') => (Normal a, w')
  | (Thrown e, w') => handler e w'
  end.

(** The state as the handler's closure sees it. *)
Definition render : M AppState := λ w, (Normal (app w), w).

Definition timeZone : M JsDate.Zone := λ w, (Normal (tza w), w).
Definition Date_now : M Z := λ w, (Normal (now w), w).

Definition update (f : AppState → AppState) : M unit := λ w,
  (Normal tt,
   mkWorld (f (app w)) (db w) (issued w) (console w) (alerts w) (faults w)
           (now w) (tza w)).

Definition setUser (v : option User.t) : M unit :=
  update (λ s, mkApp v (loading s) (isOnboarding s) (habits s) (tracker s)
                     (weekStartDate s) (habitInputs s)).
Definition setLoading (v : bool) : M unit :=
  update (λ s, mkApp (user s) v (isOnboarding s) (habits s) (tracker s)
                     (weekStartDate s) (habitInputs s)).
Definition setIsOnboarding (v : bool) : M unit :=
  update (λ s, mkApp (user s) (loading s) v (habits s) (tracker s)
                     (weekStartDate s) (habitInputs s)).
Definition setHabits (v : list Habit.t) : M unit :=
  update (λ s, mkApp (user s) (loading s) (isOnboarding s) v (tracker s)
                     (weekStartDate s) (habitInputs s)).
(** [setTracker(prev => f(prev))]; [setTracker(v)] is [setTracker (λ _, v)]. *)
Definition setTracker (f : HabitTracker → HabitTracker) : M unit :=
  update (λ s, mkApp (user s) (loading s) (isOnboarding s) (habits s)
                     (f (tracker s)) (weekStartDate s) (habitInputs s)).
Definition setWeekStartDate (v : string) : M unit :=
  update (λ s, mkApp (user s) (loading s) (isOnboarding s) (habits s)
                     (tracker s) v (habitInputs s)).
Definition setHabitInputs (v : list string) : M unit :=
  update (λ s, mkApp (user s) (loading s) (isOnboarding s) (habits s)
                     (tracker s) (weekStartDate s) v).

Definition console_error (message : string) : M unit := λ w,
  (Normal tt,
   mkWorld (app w) (db w) (issued w) (console w ++ [message]) (alerts w)
           (faults w) (now w) (tza w)).

Definition alert (message : string) : M unit := λ w,
  (Normal tt,
   mkWorld (app w) (db w) (issued w) (console w) (alerts w ++ [message])
           (faults w) (now w) (tza w)).

(** [await] of a request: it is recorded as issued, the transport's next
    fault is consumed, and without a fault [exec] runs on the tables. *)
Definition call {A} (r : Request) (exec : Z → Db.t → Response A * Db.t)
  : M (Response A) := λ w,
  let sent := issued w ++ [r] in
  match faults w with
  | ResolvesWithError message :: rest =>
      (Normal (Db.failed message),
       mkWorld (app w) (db w) sent (console w) (alerts w) rest (now w) (tza w))
  | Rejects :: rest =>
      (Thrown FetchRejected,
       mkWorld (app w) (db w) sent (console w) (alerts w) rest (now w) (tza w))
  | NoFault :: rest =>
      let '(resp, db') := exec (now w) (db w) in
      (Normal resp,
       mkWorld (app w) db' sent (console w) (alerts w) rest (now w) (tza w))
  | [] =>
      let '(resp, db') := exec (now w) (db w) in
      (Normal resp,
       mkWorld (app w) db' sent (console w) (alerts w) [] (now w) (tza w))
  end.

Module supabase.
Definition select_habits (uid : string) :=
  call (SelectHabits uid) (λ _, Db.select_habits uid).
Definition select_entries (uid lo hi : string) :=
  call (SelectEntries uid lo hi) (λ _, Db.select_entries uid lo hi).
Definition insert_habits (rows : list HabitInsert.t) :=
  call (InsertHabits rows) (λ now, Db.insert_habits now rows).
Definition insert_entry (row : EntryInsert.t) :=
  call (InsertEntry row) (λ now, Db.insert_entry now row).
Definition delete_entry (h u d : string) :=
  call (DeleteEntry h u d) (λ _, Db.delete_entry h u d).
Definition delete_entries_of_user (u : string) :=
  call (DeleteEntriesOfUser u) (λ _, Db.delete_entries_of_user u).
Definition delete_habits_of_user (u : string) :=
  call (DeleteHabitsOfUser u) (λ _, Db.delete_habits_of_user u).
(** [supabase.auth.signOut()]; the auth-change event that follows is
    delivered to the subscriber separately. *)
Definition auth_signOut : M (Response unit) :=
  call AuthSignOut (λ _ d, (Db.no_content, d)).
End supabase.

(** ** The component's functions *)

(** [getCurrentWeekStart], on the clock [today] and the time zone [tz]. *)
Definition getCurrentWeekStart_at (tz : JsDate.Zone) (today : Z)
  : Completion string :=
  let today : JsDate.t := Some today in
  let monday : JsDate.t := today in
  let monday :=
    JsDate.setDate tz monday
      (num_sub (JsDate.getDate tz today)
               (if decide (JsDate.getDay tz today = Some 0) then Some 6
                else num_sub (JsDate.getDay tz today) (Some 1))) in
  JsDateIso.toISODate monday.

Definition getCurrentWeekStart : M string :=
  tz ← timeZone; today ← Date_now; lift (getCurrentWeekStart_at tz today).

(** [const date = new Date(weekStart); date.setDate(date.getDate() + dayIndex);
    date.toISOString().split('T')[0]], as [loadHabitEntries] and
    [toggleHabit] both compute it. *)
Definition dateOfDay (tz : JsDate.Zone) (weekStart : string) (dayIndex : Z)
  : Completion string :=
  let date := JsDate.parse weekStart in
  let date := JsDate.setDate tz date (num_add (JsDate.getDate tz date) (Some dayIndex)) in
  JsDateIso.toISODate date.

(** [tracker[habitId]?.[day] || false] *)
Definition cell (tracker : HabitTracker) (habitId day : string) : bool :=
  default false (tracker !! habitId ≫= (.!! day)).

(** [xs.forEach] with a body that may throw. *)
Fixpoint forEach {A B} (f : B → A → Completion B) (xs : list A) (acc : B)
  : Completion B :=
  match xs with
  | [] => Normal acc
  | x :: xs' => acc' ← f acc x; forEach f xs' acc'
  end.

(** [entriesData?.find(e => e.habit_id === habitId && e.date === dateStr)] *)
Definition findEntry (entriesData : option (list Entry.t)) (habitId dateStr : string)
  : option Entry.t :=
  l ← entriesData;
  snd <$> list_find (λ e, Entry.habit_id e = habitId ∧ Entry.date e = dateStr) l.

(** The conversion of entries to the tracker format in [loadHabitEntries]. *)
Definition buildTracker (tz : JsDate.Zone) (userHabits : list Habit.t)
    (weekStart : string)
    (entriesData : option (list Entry.t)) : Completion HabitTracker :=
  forEach (λ (newTracker : HabitTracker) habit,
    row ← forEach (λ (row : gmap string bool) '(dayIndex, _),
             dateStr ← dateOfDay tz weekStart (Z.of_nat dayIndex);
             let dayName := default "undefined" (DAYS !! dayIndex) in
             let entry := findEntry entriesData (Habit.id habit) dateStr in
             Normal (<[dayName := default false (Entry.completed <$> entry)]> row))
           (imap pair DAYS) ∅;
    Normal (<[Habit.id habit := row]> newTracker))
    userHabits ∅.

(** [loadHabitEntries]; [user] is the variable of the enclosing render that
    the function's closure holds. An undefined [user?.id] is sent as the
    text [undefined]. *)
Definition loadHabitEntries (user : option User.t)
    (userHabits : list Habit.t) (weekStart : string) : M unit :=
  try_catch
    (tz ← timeZone;
     let weekEnd := JsDate.parse weekStart in
     let weekEnd :=
       JsDate.setDate tz weekEnd (num_add (JsDate.getDate tz weekEnd) (Some 6)) in
     hi ← lift (JsDateIso.toISODate weekEnd);
     r ← supabase.select_entries (from_option User.id "undefined" user) weekStart hi;
     match error r with
     | Some e => throw (PostgrestError e)
     | None =>
         newTracker ← lift (buildTracker tz userHabits weekStart (data r));
         setTracker (λ _, newTracker)
     end)
    (λ _, console_error "Error loading habit entries:").

(** [loadUserHabits]; [loadHabitEntries] is the function its closure holds. *)
Definition loadUserHabits (loadHabitEntries : list Habit.t → string → M unit)
    (userId : string) : M unit :=
  try_catch
    (r ← supabase.select_habits userId;
     match error r with
     | Some e => throw (PostgrestError e)
     | None =>
         match data r with
         | Some (h :: hs) =>
             let habitsData := h :: hs in
             setHabits habitsData;;
             setIsOnboarding false;;
             weekStart ← getCurrentWeekStart;
             setWeekStartDate weekStart;;
             loadHabitEntries habitsData weekStart
         | _ =>
             setIsOnboarding true;;
             weekStart ← getCurrentWeekStart;
             setWeekStartDate weekStart
         end
     end)
    (λ _, console_error "Error loading habits:").

(** The subscriber of [supabase.auth.onAuthStateChange]; [session] is
    [session?.user ?? null]. *)
Definition onAuthStateChange (loadUserHabits : string → M unit)
    (session : option User.t) : M unit :=
  setUser session;;
  match session with
  | Some u => loadUserHabits (User.id u)
  | None =>
      setHabits [];;
      setTracker (λ _, ∅);;
      setIsOnboarding true
  end.

Definition handleOnboardingSubmit : M unit :=
  st ← render;
  match user st with
  | None => mret tt
  | Some u =>
      let validHabits := filter (λ habit, Js.trim habit ≠ "") (habitInputs st) in
      if decide (length validHabits = 5%nat) then
        try_catch
          (let habitsToInsert :=
             (λ name, HabitInsert.mk (User.id u) (Js.trim name)) <$> validHabits in
           r ← supabase.insert_habits habitsToInsert;
           match error r with
           | Some e => throw (PostgrestError e)
           | None =>
               match data r with
               | Some newHabits =>
                   setHabits newHabits;;
                   setTracker (λ _, ∅);;
                   weekStart ← getCurrentWeekStart;
                   setWeekStartDate weekStart;;
                   setIsOnboarding false
               | None => mret tt
               end
           end)
          (λ _, console_error "Error creating habits:";;
                alert "Error creating habits. Please try again.")
      else mret tt
  end.

(** [DAYS.indexOf(day)]: -1 when absent. *)
Definition indexOf (xs : list string) (x : string) : Z :=
  match list_find (λ y, y = x) xs with
  | Some (i, _) => Z.of_nat i
  | None => -1
  end.

Definition toggleHabit (habitId day : string) : M unit :=
  st ← render;
  match user st with
  | None => mret tt
  | Some u =>
      tz ← timeZone;
      let dayIndex := indexOf DAYS day in
      dateStr ← lift (dateOfDay tz (weekStartDate st) dayIndex);
      let currentValue := cell (tracker st) habitId day in
      let newValue := negb currentValue in
      try_catch
        ((if currentValue then
            supabase.delete_entry habitId (User.id u) dateStr;; mret tt
          else
            supabase.insert_entry
              (EntryInsert.mk habitId (User.id u) dateStr true);; mret tt);;
         setTracker (λ prev,
           <[habitId := <[day := newValue]> (default ∅ (prev !! habitId))]> prev))
        (λ _, console_error "Error toggling habit:")
  end.

Definition resetWeek : M unit :=
  st ← render;
  match user st with
  | None => mret tt
  | Some u =>
      try_catch
        (supabase.delete_entries_of_user (User.id u);;
         supabase.delete_habits_of_user (User.id u);;
         setIsOnboarding true;;
         setHabits [];;
         setTracker (λ _, ∅);;
         setHabitInputs [""; ""; ""; ""; ""])
        (λ _, console_error "Error resetting data:")
  end.

Definition signOut : M unit :=
  supabase.auth_signOut;; mret tt.

(** ** The view: progress, per-habit summary and export *)

(** [b ? 1 : 0] *)
Definition bit (b : bool) : Z := if b then 1 else 0.

(** [Math.round((a / b) * 100)], the quotient taken as an exact rational. *)
Definition percentOf (a b : Z) : Z :=
  Js.Math_round (inject_Z a / inject_Z b * inject_Z 100)%Q.

(** [Math.round((a / b) * 100)] in doubles, as the language computes it:
    the quotient is rounded to a double, and so is the product. *)
Definition percentOf_double (a b : Z) : Z :=
  Js.Math_round_double
    (PrimFloat.mul (PrimFloat.div (Js.Number_of_Z a) (Js.Number_of_Z b))
                   (Js.Number_of_Z 100)).

Definition getWeeklyProgress (st : AppState) : Z :=
  let totalPossible := Z.of_nat (length (habits st)) * 7 in
  let totalCompleted :=
    foldl (λ sum habit,
             sum + foldl (λ daySum day,
                            daySum + bit (cell (tracker st) (Habit.id habit) day))
                         0 DAYS)
          0 (habits st) in
  if 0 <? totalPossible then percentOf totalCompleted totalPossible else 0.

(** [getWeeklyProgress] with the last line computed in doubles. *)
Definition getWeeklyProgress_double (st : AppState) : Z :=
  let totalPossible := Z.of_nat (length (habits st)) * 7 in
  let totalCompleted :=
    foldl (λ sum habit,
             sum + foldl (λ daySum day,
                            daySum + bit (cell (tracker st) (Habit.id habit) day))
                         0 DAYS)
          0 (habits st) in
  if 0 <? totalPossible then percentOf_double totalCompleted totalPossible else 0.

(** The card of one habit in the progress summary: [completed] and
    [percentage]. *)
Definition habitSummary (st : AppState) (habit : Habit.t) : Z * Z :=
  let completed :=
    foldl (λ sum day, sum + bit (cell (tracker st) (Habit.id habit) day)) 0 DAYS in
  let percentage := percentOf completed 7 in
  (completed, percentage).

(** The values of [statData]: numbers and strings; a missing property
    reads as [undefined]. *)
Inductive Value :=
  | Undefined
  | Num (n : Z)
  | Str (s : string).

Definition prop (o : gmap string Value) (key : string) : Value :=
  default Undefined (o !! key).

(** How [join] renders an element, and how a template literal does. *)
Definition joinText (v : Value) : string :=
  match v with
  | Undefined => ""
  | Num n => Js.Number_toString n
  | Str s => s
  end.
Definition templateText (v : Value) : string :=
  match v with
  | Undefined => "undefined"
  | Num n => Js.Number_toString n
  | Str s => s
  end.

Definition newline : string := String (ascii_of_nat 10) "".

(** What the browser is handed: the blob's text and type, and the
    [download] attribute of the anchor. *)
Record Download := mkDownload {
  content : string;
  type : string;
  download : string
}.

Definition statOf (st : AppState) (habit : Habit.t) : gmap string Value :=
  let habitStats := (λ day, bit (cell (tracker st) (Habit.id habit) day)) <$> DAYS in
  let total := foldl (λ sum val, sum + val) 0 habitStats in
  let statData : gmap string Value :=
    <["percentage" := Num (percentOf total 7)]>
      (<["total" := Num total]> (<["habit" := Str (Habit.name habit)]> ∅)) in
  foldl (λ (statData : gmap string Value) '(i, day),
           <[day := from_option Num Undefined (habitStats !! i)]> statData)
        statData (imap pair DAYS).

Definition csvHeader : string :=
  Js.join "," (["Habit"] ++ DAYS ++ ["Total"; "Percentage"]).

Definition csvRow (stat : gmap string Value) : string :=
  Js.join ","
    ([joinText (prop stat "habit")]
       ++ ((λ day, joinText (prop stat day)) <$> DAYS)
       ++ [joinText (prop stat "total");
           templateText (prop stat "percentage") +:+ "%"]).

Definition downloadStats (st : AppState) : Download :=
  let stats := statOf st <$> habits st in
  let csvContent := Js.join newline ([csvHeader] ++ (csvRow <$> stats)) in
  mkDownload csvContent "text/csv"
             ("habit-tracker-" +:+ weekStartDate st +:+ ".csv").

(** The [onChange] of the input at [index] of the onboarding form. *)
Definition changeHabitInput (index : nat) (value : string) : M unit :=
  st ← render;
  let newInputs := habitInputs st in
  let newInputs := <[index := value]> newInputs in
  setHabitInputs newInputs.

(** [try { body } catch (error) { handler } finally { final }] *)
Definition try_catch_finally {A} (body : M A) (handler : Exn → M A)
    (final : M unit) : M A := λ w,
  let '(c, w') := try_catch body handler w in
  match final w' with
  | (Normal _, w'') => (c, w'')
  | (Thrown e, w'') => (Thrown e, w'')
  end.

(** [checkAuth], which the component runs once when it mounts. [getUser]
    is [supabase.auth.getUser()], read as its [data.user]. *)
Definition checkAuth (getUser : M (option User.t))
    (loadUserHabits : string → M unit) : M unit :=
  try_catch_finally
    (user ← getUser;
     setUser user;;
     match user with
     | Some u => loadUserHabits (User.id u)
     | None => mret tt
     end)
    (λ _, console_error "Error checking auth:")
    (setLoading false).

(** ** Vocabulary of the statements *)

(** The world a handler leaves behind. *)
Definition after {A} (m : M A) (w : World) : World := (m w).2.

(** No coming remote call is disturbed by the transport. *)
Definition calm (w : World) : Prop := Forall (λ f, f = NoFault) (faults w).

(** [n] clicks on the same cell, each handled to its end before the next. *)
Fixpoint clicks (n : nat) (habitId day : string) : M unit :=
  match n with
  | O => mret tt
  | S n' => toggleHabit habitId day;; clicks n' habitId day
  end.

(** The rows of [habit_entries] without their generated columns. *)
Definition entryKeys (d : Db.t) : list (string * string * string * bool) :=
  (λ e, (Entry.habit_id e, Entry.user_id e, Entry.date e, Entry.completed e))
    <$> Db.habit_entries d.

(** The cells of the week that are checked, over the habit list. *)
Definition completedCells (st : AppState) : Z :=
  foldl (λ sum habit,
           sum + foldl (λ daySum day,
                          daySum + bit (cell (tracker st) (Habit.id habit) day))
                       0 DAYS)
        0 (habits st).

(** The progress figure in the words of the specification:
    [round(100 * completedCells / (5 habits * 7 days))]. *)
Definition weeklyProgress_spec (st : AppState) : Z :=
  Js.Math_round (inject_Z 100 * inject_Z (completedCells st) / inject_Z (5 * 7))%Q.

(** A tracker with one key per habit of [hs], each mapping exactly the
    seven day names. *)
Definition fullGrid (hs : list Habit.t) (t : HabitTracker) : Prop :=
  dom t = list_to_set (Habit.id <$> hs)
  ∧ ∀ h row, t !! h = Some row → dom row = list_to_set (C := gset string) DAYS.

(** What every click on the cell [(habitId, day)] preserves, [b] being
    the value the cell shows and [d] the date of the day: the tables hold
    the row of the cell exactly when it shows as checked. *)
Definition synced (u : User.t) (habitId day d : string) (b : bool) (w : World)
  : Prop :=
  user (app w) = Some u
  ∧ calm w
  ∧ habitId ∈ Habit.id <$> Db.habits (db w)
  ∧ dateOfDay (tza w) (weekStartDate (app w)) (indexOf DAYS day) = Normal d
  ∧ cell (tracker (app w)) habitId day = b
  ∧ entryKeys (db w) = (if b then [(habitId, User.id u, d, true)] else []).

(** The row of one habit, written out from the summary card. *)
Definition summaryRow (st : AppState) (h : Habit.t) : string :=
  Js.join ","
    ([Habit.name h]
       ++ ((λ day, if cell (tracker st) (Habit.id h) day then "1" else "0") <$> DAYS)
       ++ [Js.Number_toString (habitSummary st h).1;
           Js.Number_toString (habitSummary st h).2 +:+ "%"]).

(** The days gone since Monday, on day number [day]. *)
Definition sinceMonday (day : Z) : Z := (day + 3) mod 7.

(** The date the code computes for the cell of the [i]-th day of the week
    (the empty string where the computation throws). *)
Definition dateString (tz : JsDate.Zone) (weekStart : string) (i : nat) : string :=
  match dateOfDay tz weekStart (Z.of_nat i) with
  | Normal d => d
  | Thrown _ => ""
  end.

(** The row of one habit: for each day of the week, whether the entries
    hold a completed row of the habit on the date [dateOf] gives the day. *)
Definition rowOf (entriesData : option (list Entry.t)) (dateOf : nat → string)
    (habitId : string) : gmap string bool :=
  foldl (λ (row : gmap string bool) '(dayIndex, dayName),
           <[dayName := default false
               (Entry.completed <$>
                  findEntry entriesData habitId (dateOf dayIndex))]> row)
        ∅ (imap pair DAYS).

Definition gridOf (entriesData : option (list Entry.t)) (dateOf : nat → string)
    (hs : list Habit.t) (acc : HabitTracker) : HabitTracker :=
  foldl (λ (t : HabitTracker) h,
           <[Habit.id h := rowOf entriesData dateOf (Habit.id h)]> t) acc hs.

(** The worlds the component can be in: it mounts in [initialState] over
    some tables, asks the auth provider for the user, and handles events
    one at a time, each to its end. [answer] is what [getUser] comes back
    with. *)
Definition mounted (d : Db.t) (clock : Z) (zone : JsDate.Zone) : World :=
  mkWorld initialState d [] [] [] [] clock zone.

Inductive Reachable : World → Prop :=
  | reach_mount d clock zone :
      Reachable (mounted d clock zone)
  | reach_checkAuth w closureUser (answer : Completion (option User.t)) :
      Reachable w →
      Reachable (after (checkAuth (lift answer)
                          (loadUserHabits (loadHabitEntries closureUser))) w)
  | reach_auth w closureUser session :
      Reachable w →
      Reachable (after (onAuthStateChange
                          (loadUserHabits (loadHabitEntries closureUser)) session) w)
  | reach_input w index value :
      Reachable w → Reachable (after (changeHabitInput index value) w)
  | reach_submit w :
      Reachable w → Reachable (after handleOnboardingSubmit w)
  | reach_toggle w habit day :
      Reachable w → habit ∈ habits (app w) → day ∈ DAYS →
      Reachable (after (toggleHabit (Habit.id habit) day) w)
  | reach_reset w :
      Reachable w → Reachable (after resetWeek w)
  | reach_signOut w :
      Reachable w → Reachable (after signOut w).

(** Worlds used as concrete instances. *)
Module Demo.
Definition alice : User.t := User.mk "u1" "alice@example.org".
Definition run : Habit.t := Habit.mk "h1" "Run" "u1" 0.

(** Midday UTC on Wednesday 3 January 2024. *)
Definition wednesday : Z := 1704283200000.

Definition tracking : AppState :=
  mkApp (Some alice) false false [run] ∅ "2024-01-01" [""; ""; ""; ""; ""].

Definition world : World :=
  mkWorld tracking (Db.mk [run] [] 0) [] [] [] [] wednesday 0.

Definition signedOut : World :=
  mkWorld initialState (Db.mk [run] [] 0) [] [] [] [] wednesday 0.

Definition typed : list string :=
  [" Run "; "Read"; "Sleep"; "Stretch"; "Write"].

Definition onboarding (inputs : list string) : World :=
  mkWorld (mkApp (Some alice) false true [] ∅ "2024-01-01" inputs)
          Db.empty [] [] [] [] wednesday 0.

(** Sydney in the southern spring of 2024: ten hours east of UTC, and
    eleven from 02:00 standard time on Sunday 6 October 2024, which is
    16:00 UTC on 5 October; the local times from 02:00 to 03:00 of that
    day are skipped and read with the offset before the change. *)
Definition sydney : JsDate.Zone :=
  JsDate.mkZone 36000000
    (λ tv, 1728144000000 <=? tv)
    (λ lt, 1728183600000 <=? lt).

(** Midday in Sydney on Wednesday 2 October 2024 (02:00 UTC), in the week
    that starts on Monday 30 September 2024; alice tracks one habit. *)
Definition sydneyWeek : World :=
  mkWorld (mkApp (Some alice) false false [run] ∅ "2024-09-30"
                 [""; ""; ""; ""; ""])
          (Db.mk [run] [] 0) [] [] [] [] 1727834400000 sydney.
End Demo.

(** ** Vocabulary of the further properties *)

(** The days of the years 0 to 9999. *)
Definition firstDay : Z := -719528.
Definition lastDay : Z := 2932896.


(** The order of [order('created_at', { ascending: true })]. *)
Definition byCreation (a b : Habit.t) : Prop :=
  Habit.created_at a ≤ Habit.created_at b.


(** What the component renders: the three early returns, then the grid. *)
Inductive View :=
  | LoadingView
  | AuthView
  | OnboardingView
  | TrackerView.

Definition view (st : AppState) : View :=
  if loading st then LoadingView
  else match user st with
       | None => AuthView
       | Some _ => if isOnboarding st then OnboardingView else TrackerView
       end.

(** The [disabled] attribute of the Start Tracking button. *)
Definition startDisabled (st : AppState) : bool :=
  bool_decide (length (filter (λ h, Js.trim h ≠ "") (habitInputs st)) ≠ 5%nat).

(** How often the code unit [c] occurs in [s]. *)
Fixpoint occurrences (c : ascii) (s : string) : nat :=
  match s with
  | EmptyString => 0
  | String x s' => (if decide (x = c) then 1 else 0) + occurrences c s'
  end.

Definition comma : ascii := ascii_of_nat 44.
Definition lineFeed : ascii := ascii_of_nat 10.
(** * Properties *)

(** ** Running a handler *)

Lemma calm_tail w f rest : calm w → faults w = f :: rest → f = NoFault ∧ Forall (λ f, f = NoFault) rest.
Proof. unfold calm. intros Hc E. rewrite E in Hc. by inversion Hc. Qed.

(** A call that the transport lets through runs on the tables. *)
Lemma call_calm {A} (r : Request) (exec : Z → Db.t → Response A * Db.t) w :
  calm w →
  call r exec w =
    (Normal (exec (now w) (db w)).1,
     mkWorld (app w) (exec (now w) (db w)).2 (issued w ++ [r]) (console w)
             (alerts w) (tail (faults w)) (now w) (tza w)).
Proof.
  intros Hc. unfold call.
  destruct (faults w) as [|f rest] eqn:E.
  - by destruct (exec (now w) (db w)).
  - destruct (calm_tail _ _ _ Hc E) as [-> _].
    by destruct (exec (now w) (db w)).
Qed.

Lemma calm_after_call w a d i c al :
  calm w → calm (mkWorld a d i c al (tail (faults w)) (now w) (tza w)).
Proof.
  unfold calm. simpl. intros Hc. destruct (faults w); [done|]. by inversion Hc.
Qed.

(** ** The calendar *)

(** A day number, taken apart and put together again; the day of the month
    may be moved out of the month on the way. *)
Lemma day_of_civil_of_day (z n : Z) :
  JsDate.day_of_civil (JsDate.civil_of_day z).1.1 (JsDate.civil_of_day z).1.2
                      ((JsDate.civil_of_day z).2 + n) = z + n.
Proof.
  unfold JsDate.civil_of_day, JsDate.day_of_civil. cbv zeta. cbn [fst snd].
  set (z' := z + 719468).
  set (era := z' / 146097).
  set (doe := z' - era * 146097).
  assert (0 ≤ doe < 146097) as Hdoe
    by (subst doe era; Z.to_euclidean_division_equations; lia).
  set (yoe := (doe - doe / 1460 + doe / 36524 - doe / 146096) / 365).
  assert (0 ≤ yoe ≤ 399) as Hyoe
    by (subst yoe; Z.to_euclidean_division_equations; lia).
  set (doy := doe - (365 * yoe + yoe / 4 - yoe / 100)).
  assert (0 ≤ doy ≤ 365) as Hdoy
    by (subst doy yoe; Z.to_euclidean_division_equations; lia).
  set (mp := (5 * doy + 2) / 153).
  assert (0 ≤ mp ≤ 11) as Hmp
    by (subst mp; Z.to_euclidean_division_equations; lia).
  destruct (mp <? 10) eqn:E.
  - apply Z.ltb_lt in E.
    replace (mp + 3 <=? 2) with false by (symmetry; apply Z.leb_gt; lia).
    replace (2 <? mp + 3) with true by (symmetry; apply Z.ltb_lt; lia).
    replace (mp + 3 - 3) with mp by lia.
    replace ((yoe + era * 400) / 400) with era
      by (Z.to_euclidean_division_equations; lia).
    replace (yoe + era * 400 - era * 400) with yoe by lia.
    clearbody yoe mp era. subst doy doe z'. lia.
  - apply Z.ltb_ge in E.
    replace (mp - 9 <=? 2) with true by (symmetry; apply Z.leb_le; lia).
    replace (2 <? mp - 9) with false by (symmetry; apply Z.ltb_ge; lia).
    replace (mp - 9 + 9) with mp by lia.
    replace (yoe + era * 400 + 1 - 1) with (yoe + era * 400) by lia.
    replace ((yoe + era * 400) / 400) with era
      by (Z.to_euclidean_division_equations; lia).
    replace (yoe + era * 400 - era * 400) with yoe by lia.
    clearbody yoe mp era. subst doy doe z'. lia.
Qed.

Lemma civil_of_day_range (z : Z) :
  1 ≤ (JsDate.civil_of_day z).1.2 ≤ 12 ∧ 1 ≤ (JsDate.civil_of_day z).2 ≤ 31.
Proof.
  unfold JsDate.civil_of_day. cbv zeta. cbn [fst snd].
  set (z' := z + 719468).
  set (era := z' / 146097).
  set (doe := z' - era * 146097).
  assert (0 ≤ doe < 146097) as Hdoe
    by (subst doe era; Z.to_euclidean_division_equations; lia).
  set (yoe := (doe - doe / 1460 + doe / 36524 - doe / 146096) / 365).
  set (doy := doe - (365 * yoe + yoe / 4 - yoe / 100)).
  assert (0 ≤ doy ≤ 365) as Hdoy
    by (subst doy yoe; Z.to_euclidean_division_equations; lia).
  clearbody doy. clear Hdoe.
  set (mp := (5 * doy + 2) / 153).
  assert (0 ≤ mp ≤ 11) as Hmp
    by (subst mp; Z.to_euclidean_division_equations; lia).
  split.
  - destruct (mp <? 10) eqn:E; [apply Z.ltb_lt in E|apply Z.ltb_ge in E]; lia.
  - subst mp. Z.to_euclidean_division_equations. lia.
Qed.

(** A day lies in the years 0 to 9999 exactly when it lies between
    [firstDay] and [lastDay]. *)
Lemma year_of_day_range (z : Z) :
  firstDay ≤ z ≤ lastDay ↔ 0 ≤ (JsDate.civil_of_day z).1.1 ≤ 9999.
Proof.
  unfold firstDay, lastDay, JsDate.civil_of_day. cbv zeta. cbn [fst snd].
  set (z' := z + 719468).
  set (era := z' / 146097).
  set (doe := z' - era * 146097).
  assert (0 ≤ doe < 146097) as Hdoe
    by (subst doe era; Z.to_euclidean_division_equations; lia).
  set (yoe := (doe - doe / 1460 + doe / 36524 - doe / 146096) / 365).
  assert (0 ≤ yoe ≤ 399) as Hyoe
    by (subst yoe; Z.to_euclidean_division_equations; lia).
  set (doy := doe - (365 * yoe + yoe / 4 - yoe / 100)).
  assert (0 ≤ doy ≤ 365) as Hdoy
    by (subst doy yoe; Z.to_euclidean_division_equations; lia).
  set (mp := (5 * doy + 2) / 153).
  assert (0 ≤ mp ≤ 11) as Hmp
    by (subst mp; Z.to_euclidean_division_equations; lia).
  assert (306 ≤ doy ↔ 10 ≤ mp) as Hmarch
    by (subst mp; Z.to_euclidean_division_equations; lia).
  assert (era = -1 → (146037 ≤ doe ↔ yoe = 399 ∧ 306 ≤ doy)) as Hlow.
  { intros _. subst doy yoe. Z.to_euclidean_division_equations. lia. }
  assert (era = 24 → (doe ≤ 146036 ↔ yoe < 399 ∨ (yoe = 399 ∧ doy < 306)))
    as Hhigh.
  { intros _. subst doy yoe. Z.to_euclidean_division_equations. lia. }
  assert (z' = era * 146097 + doe) as Hz by (subst doe; lia).
  assert (z = z' - 719468) as Hz' by (subst z'; lia).
  clearbody z' era doe yoe doy mp.
  destruct (mp <? 10) eqn:E; [apply Z.ltb_lt in E | apply Z.ltb_ge in E].
  - replace (mp + 3 <=? 2) with false by (symmetry; apply Z.leb_gt; lia). lia.
  - replace (mp - 9 <=? 2) with true by (symmetry; apply Z.leb_le; lia). lia.
Qed.

(** Over the days a [Date] can hold, the year has at most six digits. *)
Lemma year_of_day_wide (z : Z) :
  -100000000 ≤ z ≤ 100000000 →
  -999999 ≤ (JsDate.civil_of_day z).1.1 ≤ 999999.
Proof.
  intros Hz. unfold JsDate.civil_of_day. cbv zeta. cbn [fst snd].
  set (z' := z + 719468).
  set (era := z' / 146097).
  set (doe := z' - era * 146097).
  assert (0 ≤ doe < 146097) as Hdoe
    by (subst doe era; Z.to_euclidean_division_equations; lia).
  assert (-680 ≤ era ≤ 689) as Hera
    by (subst era z'; Z.to_euclidean_division_equations; lia).
  set (yoe := (doe - doe / 1460 + doe / 36524 - doe / 146096) / 365).
  assert (0 ≤ yoe ≤ 399) as Hyoe
    by (subst yoe; Z.to_euclidean_division_equations; lia).
  clearbody yoe era.
  repeat case_match; lia.
Qed.

Lemma Day_add_days (tv n : Z) :
  JsDate.Day (tv + n * JsDate.msPerDay) = JsDate.Day tv + n.
Proof. unfold JsDate.Day, JsDate.msPerDay. by rewrite Z.div_add. Qed.

Lemma Day_of_days (n : Z) : JsDate.Day (n * JsDate.msPerDay) = n.
Proof. unfold JsDate.Day, JsDate.msPerDay. by rewrite Z.div_mul. Qed.

(** *** Time zones *)

Lemma LocalTZA_fixed (offset t : Z) (isUTC : bool) :
  JsDate.LocalTZA (JsDate.fixed offset) t isUTC = offset.
Proof. unfold JsDate.LocalTZA. destruct isUTC; simpl; lia. Qed.

(** [d.setDate(d.getDate() + n)] moves the local time by [n] days. *)
Lemma setDate_getDate (zone : JsDate.Zone) (tv n : Z) :
  JsDate.setDate zone (Some tv) (num_add (JsDate.getDate zone (Some tv)) (Some n))
  = Some (JsDate.UTC zone (JsDate.LocalTime zone tv + n * JsDate.msPerDay)).
Proof.
  unfold JsDate.setDate, JsDate.getDate, num_add. simpl.
  unfold JsDate.YearFromTime, JsDate.MonthFromTime, JsDate.DateFromTime.
  rewrite day_of_civil_of_day.
  set (lt := JsDate.LocalTime zone tv).
  apply (f_equal (λ x, Some (JsDate.UTC zone x))).
  unfold JsDate.Day, JsDate.TimeWithinDay, JsDate.msPerDay.
  Z.to_euclidean_division_equations. lia.
Qed.

(** In UTC the move is by [n] days, give or take the hour by which the
    clocks may have changed in between. *)
Lemma moved_near (zone : JsDate.Zone) (tv n : Z) :
  tv + n * JsDate.msPerDay - JsDate.msPerHour
  ≤ JsDate.UTC zone (JsDate.LocalTime zone tv + n * JsDate.msPerDay)
  ≤ tv + n * JsDate.msPerDay + JsDate.msPerHour.
Proof.
  unfold JsDate.UTC, JsDate.LocalTime, JsDate.LocalTZA, JsDate.msPerHour.
  destruct (JsDate.summerAtUTC zone tv), (JsDate.summerAtLocal zone _); lia.
Qed.

(** Where the clocks never change it is by [n] days exactly. *)
Lemma moved_fixed (offset tv n : Z) :
  JsDate.UTC (JsDate.fixed offset)
             (JsDate.LocalTime (JsDate.fixed offset) tv + n * JsDate.msPerDay)
  = tv + n * JsDate.msPerDay.
Proof. unfold JsDate.UTC, JsDate.LocalTime. rewrite !LocalTZA_fixed. lia. Qed.

(** From a midnight in UTC, that is the [n]-th day after or the day before
    it. *)
Lemma Day_moved_midnight (zone : JsDate.Zone) (day0 n : Z) :
  let moved := JsDate.UTC zone (JsDate.LocalTime zone (day0 * JsDate.msPerDay)
                                + n * JsDate.msPerDay) in
  JsDate.Day moved = day0 + n ∨ JsDate.Day moved = day0 + n - 1.
Proof.
  cbv zeta. pose proof (moved_near zone (day0 * JsDate.msPerDay) n) as H.
  revert H. generalize (JsDate.UTC zone (JsDate.LocalTime zone (day0 * JsDate.msPerDay)
                                          + n * JsDate.msPerDay)).
  intros x. unfold JsDate.Day, JsDate.msPerDay, JsDate.msPerHour.
  intros H. Z.to_euclidean_division_equations. lia.
Qed.

(** From any time, it is within a day of the [n]-th day after. *)
Lemma Day_moved (zone : JsDate.Zone) (tv n : Z) :
  let moved := JsDate.UTC zone (JsDate.LocalTime zone tv + n * JsDate.msPerDay) in
  JsDate.Day tv + n - 1 ≤ JsDate.Day moved ≤ JsDate.Day tv + n + 1.
Proof.
  cbv zeta. pose proof (moved_near zone tv n) as H.
  revert H. generalize (JsDate.UTC zone (JsDate.LocalTime zone tv
                                          + n * JsDate.msPerDay)).
  intros x. unfold JsDate.Day, JsDate.msPerDay, JsDate.msPerHour.
  intros H. Z.to_euclidean_division_equations. lia.
Qed.

(** *** Dates as strings *)

Lemma digit_value_digit (n : Z) :
  JsDate.digit_value (JsDate.digit n) = Some (n mod 10).
Proof.
  unfold JsDate.digit.
  assert (0 ≤ n mod 10 < 10) as Hk by (apply Z.mod_pos_bound; lia).
  set (k := n mod 10) in *.
  assert (k = 0 ∨ k = 1 ∨ k = 2 ∨ k = 3 ∨ k = 4 ∨ k = 5 ∨ k = 6 ∨ k = 7
          ∨ k = 8 ∨ k = 9) as Hcases by lia.
  clearbody k.
  repeat (destruct Hcases as [->|Hcases]; [reflexivity|]).
  by subst.
Qed.

Lemma digit_not_sign (n : Z) :
  ¬ (JsDate.digit n = "+"%char ∨ JsDate.digit n = "-"%char).
Proof.
  unfold JsDate.digit.
  assert (0 ≤ n mod 10 < 10) as Hk by (apply Z.mod_pos_bound; lia).
  set (k := n mod 10) in *.
  assert (k = 0 ∨ k = 1 ∨ k = 2 ∨ k = 3 ∨ k = 4 ∨ k = 5 ∨ k = 6 ∨ k = 7
          ∨ k = 8 ∨ k = 9) as Hcases by lia.
  clearbody k.
  repeat (destruct Hcases as [->|Hcases]; [by intros [?|?]|]).
  subst. by intros [?|?].
Qed.

Ltac same_date y m d :=
  match goal with
  | |- context [JsDate.dateAt ?a ?b ?c] =>
      replace a with y by (Z.to_euclidean_division_equations; lia);
      replace b with m by (Z.to_euclidean_division_equations; lia);
      replace c with d by (Z.to_euclidean_division_equations; lia)
  end.

(** A rendered date is read back as that day: years of at most six
    digits. *)
Lemma parse_isoDate_wide (z : Z) :
  -999999 ≤ (JsDate.civil_of_day z).1.1 ≤ 999999 →
  JsDate.parse (JsDate.isoDate z) = Some (z * JsDate.msPerDay).
Proof.
  intros Hy.
  pose proof (civil_of_day_range z) as [Hm Hd].
  pose proof (day_of_civil_of_day z 0) as Hback.
  rewrite !Z.add_0_r in Hback.
  assert (JsDate.dateAt (JsDate.civil_of_day z).1.1 (JsDate.civil_of_day z).1.2
                        (JsDate.civil_of_day z).2
          = Some (z * JsDate.msPerDay)) as Hat.
  { unfold JsDate.dateAt. rewrite Hback. rewrite decide_True; [done|].
    by destruct (JsDate.civil_of_day z) as [[? ?] ?]. }
  unfold JsDate.isoDate.
  destruct (JsDate.civil_of_day z) as [[y m] d] eqn:E. cbn [fst snd] in *.
  destruct ((0 <=? y) && (y <=? 9999)) eqn:Hfour.
  - apply andb_true_iff in Hfour as [H0%Z.leb_le H9%Z.leb_le].
    cbv [JsDate.digits String.append JsDate.parse].
    rewrite decide_False by apply digit_not_sign.
    cbv [JsDate.parseYear4].
    rewrite !digit_value_digit. cbn [mbind option_bind].
    same_date y m d. exact Hat.
  - apply andb_false_iff in Hfour.
    destruct (y <? 0) eqn:Hneg; [apply Z.ltb_lt in Hneg|apply Z.ltb_ge in Hneg].
    + cbv [JsDate.digits String.append JsDate.parse].
      rewrite decide_True by (by right).
      cbv [JsDate.parseYear6].
      rewrite decide_False by discriminate.
      rewrite decide_True by reflexivity.
      cbn [mbind option_bind].
      rewrite !digit_value_digit. cbn [mbind option_bind].
      rewrite decide_False
        by (intros [_ Hzero]; revert Hzero; Z.to_euclidean_division_equations; lia).
      same_date y m d. exact Hat.
    + assert (9999 < y) by (destruct Hfour as [?%Z.leb_gt|?%Z.leb_gt]; lia).
      cbv [JsDate.digits String.append JsDate.parse].
      rewrite decide_True by (by left).
      cbv [JsDate.parseYear6].
      rewrite decide_True by reflexivity.
      cbn [mbind option_bind].
      rewrite !digit_value_digit. cbn [mbind option_bind].
      rewrite decide_False by (intros [Hsign _]; discriminate Hsign).
      same_date y m d. exact Hat.
Qed.

(** A rendered date of the years 0 to 9999 is read back as that day. *)
Lemma parse_isoDate (z : Z) :
  0 ≤ (JsDate.civil_of_day z).1.1 ≤ 9999 →
  JsDate.parse (JsDate.isoDate z) = Some (z * JsDate.msPerDay).
Proof. intros Hy. apply parse_isoDate_wide. lia. Qed.

(** So is any date within a day of those years. *)
Lemma parse_isoDate_around (z : Z) :
  firstDay - 1 ≤ z ≤ lastDay + 1 →
  JsDate.parse (JsDate.isoDate z) = Some (z * JsDate.msPerDay).
Proof.
  unfold firstDay, lastDay. intros Hz.
  apply parse_isoDate_wide, year_of_day_wide. lia.
Qed.

Lemma dateAt_midnight (y m d tv : Z) :
  JsDate.dateAt y m d = Some tv → ∃ day0, tv = day0 * JsDate.msPerDay.
Proof. unfold JsDate.dateAt. case_decide; [|done]. intros [= <-]. eauto. Qed.

(** What [new Date] reads from a date-only string is a midnight in UTC. *)
Lemma parse_midnight (s : string) (tv : Z) :
  JsDate.parse s = Some tv → ∃ day0, tv = day0 * JsDate.msPerDay.
Proof.
  unfold JsDate.parse. destruct s as [|c0 s0]; [done|].
  case_decide as Hsign.
  - unfold JsDate.parseYear6.
    destruct s0 as [|y1 [|y2 [|y3 [|y4 [|y5 [|y6 [|c1 [|m1 [|m2 [|c2 [|d1 [|d2 [|]]]]]]]]]]]]];
      try discriminate.
    all: destruct c1 as [[] [] [] [] [] [] [] []]; try discriminate.
    all: destruct c2 as [[] [] [] [] [] [] [] []]; try discriminate.
    destruct (if decide (c0 = "+"%char) then _ else _) as [sign|];
      cbn [mbind option_bind]; [|done].
    destruct (JsDate.digit_value y1); cbn [mbind option_bind]; [|done].
    destruct (JsDate.digit_value y2); cbn [mbind option_bind]; [|done].
    destruct (JsDate.digit_value y3); cbn [mbind option_bind]; [|done].
    destruct (JsDate.digit_value y4); cbn [mbind option_bind]; [|done].
    destruct (JsDate.digit_value y5); cbn [mbind option_bind]; [|done].
    destruct (JsDate.digit_value y6); cbn [mbind option_bind]; [|done].
    destruct (JsDate.digit_value m1); cbn [mbind option_bind]; [|done].
    destruct (JsDate.digit_value m2); cbn [mbind option_bind]; [|done].
    destruct (JsDate.digit_value d1); cbn [mbind option_bind]; [|done].
    destruct (JsDate.digit_value d2); cbn [mbind option_bind]; [|done].
    case_decide; [done|]. apply dateAt_midnight.
  - unfold JsDate.parseYear4.
    destruct s0 as [|y2 [|y3 [|y4 [|c1 [|m1 [|m2 [|c2 [|d1 [|d2 [|]]]]]]]]]];
      try discriminate.
    all: destruct c1 as [[] [] [] [] [] [] [] []]; try discriminate.
    all: destruct c2 as [[] [] [] [] [] [] [] []]; try discriminate.
    destruct (JsDate.digit_value c0); cbn [mbind option_bind]; [|done].
    destruct (JsDate.digit_value y2); cbn [mbind option_bind]; [|done].
    destruct (JsDate.digit_value y3); cbn [mbind option_bind]; [|done].
    destruct (JsDate.digit_value y4); cbn [mbind option_bind]; [|done].
    destruct (JsDate.digit_value m1); cbn [mbind option_bind]; [|done].
    destruct (JsDate.digit_value m2); cbn [mbind option_bind]; [|done].
    destruct (JsDate.digit_value d1); cbn [mbind option_bind]; [|done].
    destruct (JsDate.digit_value d2); cbn [mbind option_bind]; [|done].
    apply dateAt_midnight.
Qed.

(** *** The date of a cell *)

(** The date computed for the cell of day [i]: the week start moved by
    [i] days of local time, rendered in UTC. *)
Lemma dateOfDay_moved (zone : JsDate.Zone) (weekStart : string) (t0 i : Z) :
  JsDate.parse weekStart = Some t0 →
  dateOfDay zone weekStart i
  = Normal (JsDate.isoDate
              (JsDate.Day (JsDate.UTC zone (JsDate.LocalTime zone t0
                                            + i * JsDate.msPerDay)))).
Proof. intros E. unfold dateOfDay. by rewrite E, setDate_getDate. Qed.

(** It is the date [i] days after the week start, or the date before
    that. *)
Lemma dateOfDay_near (zone : JsDate.Zone) (weekStart : string) (t0 i : Z) :
  JsDate.parse weekStart = Some t0 →
  dateOfDay zone weekStart i = Normal (JsDate.isoDate (JsDate.Day t0 + i))
  ∨ dateOfDay zone weekStart i = Normal (JsDate.isoDate (JsDate.Day t0 + i - 1)).
Proof.
  intros E. rewrite (dateOfDay_moved _ _ _ _ E).
  destruct (parse_midnight _ _ E) as [day0 ->]. rewrite Day_of_days.
  destruct (Day_moved_midnight zone day0 i) as [-> | ->]; auto.
Qed.

(** Where the clocks never change it is the date [i] days after the week
    start. *)
Lemma dateOfDay_parsed (offset : Z) (weekStart : string) (t0 i : Z) :
  JsDate.parse weekStart = Some t0 →
  dateOfDay (JsDate.fixed offset) weekStart i
  = Normal (JsDate.isoDate (JsDate.Day t0 + i)).
Proof.
  intros E. rewrite (dateOfDay_moved _ _ _ _ E), moved_fixed.
  by rewrite Day_add_days.
Qed.

(** *** The week start *)

(** What [getCurrentWeekStart] returns: the weekday is read in local time,
    the clock is moved back to Monday in local time, and the result is
    rendered in UTC. *)
Lemma getCurrentWeekStart_at_moved (zone : JsDate.Zone) (today : Z) :
  getCurrentWeekStart_at zone today
  = Normal (JsDate.isoDate
              (JsDate.Day
                 (JsDate.UTC zone
                    (JsDate.LocalTime zone today
                     + - sinceMonday (JsDate.Day (JsDate.LocalTime zone today))
                       * JsDate.msPerDay)))).
Proof.
  unfold getCurrentWeekStart_at.
  assert (∀ k, num_sub (JsDate.getDate zone (Some today)) (Some k)
               = num_add (JsDate.getDate zone (Some today)) (Some (- k))) as Hsub.
  { intros k. unfold num_sub, num_add. simpl. f_equal; lia. }
  assert (JsDate.getDay zone (Some today)
          = Some ((JsDate.Day (JsDate.LocalTime zone today) + 4) mod 7)) as Hday
    by done.
  rewrite Hday. clear Hday.
  set (wd := (JsDate.Day (JsDate.LocalTime zone today) + 4) mod 7).
  change (num_sub (Some wd) (Some 1)) with (Some (wd - 1)).
  assert (sinceMonday (JsDate.Day (JsDate.LocalTime zone today))
          = if decide (Some wd = Some 0) then 6 else wd - 1) as ->.
  { unfold sinceMonday. subst wd. case_decide as E.
    - simplify_eq. Z.to_euclidean_division_equations. lia.
    - assert ((JsDate.Day (JsDate.LocalTime zone today) + 4) mod 7 ≠ 0)
        by congruence.
      Z.to_euclidean_division_equations. lia. }
  case_decide as E; rewrite Hsub, setDate_getDate; reflexivity.
Qed.

Lemma sinceMonday_range (day : Z) : 0 ≤ sinceMonday day ≤ 6.
Proof. unfold sinceMonday. Z.to_euclidean_division_equations. lia. Qed.

(** The day it returns: at most seven days before the current UTC day, at
    most one after. *)
Lemma getCurrentWeekStart_at_day (zone : JsDate.Zone) (today : Z) :
  ∃ monday,
    getCurrentWeekStart_at zone today = Normal (JsDate.isoDate monday)
    ∧ JsDate.Day today - 7 ≤ monday ≤ JsDate.Day today + 1.
Proof.
  eexists. split; [apply getCurrentWeekStart_at_moved|].
  pose proof (sinceMonday_range (JsDate.Day (JsDate.LocalTime zone today))).
  pose proof (Day_moved zone today
                (- sinceMonday (JsDate.Day (JsDate.LocalTime zone today)))) as Hm.
  cbv zeta in Hm. lia.
Qed.

(** In a zone of constant offset: the weekday is read in local time, the
    days are taken off the date in UTC. *)
Lemma getCurrentWeekStart_at_value (tz today : Z) :
  getCurrentWeekStart_at tz today
  = Normal (JsDate.isoDate
              (JsDate.Day today - sinceMonday (JsDate.Day (today + tz)))).
Proof.
  rewrite getCurrentWeekStart_at_moved, moved_fixed, Day_add_days.
  unfold JsDate.LocalTime. rewrite LocalTZA_fixed.
  apply (f_equal (λ x, Normal (JsDate.isoDate x))). lia.
Qed.

(** In a zone of constant offset, where the local calendar day is the UTC
    day, notably in the UTC zone, [getCurrentWeekStart] returns the Monday
    on or before the current day; on a Sunday that is the Monday six days
    earlier, and the week that starts there ends on that Sunday. *)
Lemma getCurrentWeekStart_same_day (tz today : Z) :
  JsDate.Day (today + tz) = JsDate.Day today →
  ∃ monday,
    getCurrentWeekStart_at tz today = Normal (JsDate.isoDate monday)
    ∧ JsDate.WeekDay (monday * JsDate.msPerDay) = 1
    ∧ JsDate.Day today - 6 ≤ monday ≤ JsDate.Day today
    ∧ (JsDate.WeekDay (today + tz) = 0 →
       monday = JsDate.Day today - 6 ∧ monday + 6 = JsDate.Day today).
Proof.
  intros Hsame.
  exists (JsDate.Day today - sinceMonday (JsDate.Day today)).
  rewrite getCurrentWeekStart_at_value, Hsame.
  unfold JsDate.WeekDay. rewrite Hsame, Day_of_days.
  unfold sinceMonday.
  repeat split; try (Z.to_euclidean_division_equations; lia).
Qed.

(** C8 at its failing input: at 00:30 on Sunday 7 January 2024 in a zone
    one hour east of UTC, the Monday six days before is 1 January 2024;
    [getCurrentWeekStart] returns 31 December 2023, a Sunday, because the
    date is rendered in UTC after the subtraction was done in local time. *)
Example getCurrentWeekStart_east_of_utc :
  let tz := 3600000 in
  let today := 1704583800000 in
  JsDate.isoDate (JsDate.Day (JsDate.LocalTime tz today)) = "2024-01-07"
  ∧ JsDate.getDay tz (Some today) = Some 0
  ∧ JsDate.isoDate (JsDate.Day (JsDate.LocalTime tz today) - 6) = "2024-01-01"
  ∧ getCurrentWeekStart_at tz today = Normal "2023-12-31"
  ∧ JsDate.WeekDay (JsDate.day_of_civil 2023 12 31 * JsDate.msPerDay) = 0.
Proof. vm_compute. done. Qed.

(** ** Handlers without a user *)

(** C10: with no authenticated user, [toggleHabit], [handleOnboardingSubmit]
    and [resetWeek] return at once: no request is issued and nothing of the
    world (habits, tracker, onboarding flag, input slots, tables, log)
    changes. *)
Theorem no_user_no_effect (w : World) (habitId day : string) :
  user (app w) = None →
  toggleHabit habitId day w = (Normal tt, w)
  ∧ handleOnboardingSubmit w = (Normal tt, w)
  ∧ resetWeek w = (Normal tt, w).
Proof.
  intros Hu.
  unfold toggleHabit, handleOnboardingSubmit, resetWeek, mbind, M_bind, render.
  rewrite Hu. done.
Qed.

Lemma no_user_no_effect_witness :
  toggleHabit "h1" "Monday" Demo.signedOut = (Normal tt, Demo.signedOut)
  ∧ handleOnboardingSubmit Demo.signedOut = (Normal tt, Demo.signedOut)
  ∧ resetWeek Demo.signedOut = (Normal tt, Demo.signedOut).
Proof. apply (no_user_no_effect Demo.signedOut "h1" "Monday"). reflexivity. Defined.

(** ** Reset *)

(** C7: for an authenticated user and any tables, [resetWeek] issues the
    delete of the user's entries and then the delete of the user's habits,
    after which neither table holds a row of that user, and the component
    is back in onboarding with no habits, an empty tracker and five blank
    input slots. *)
Theorem resetWeek_clears (w : World) (u : User.t) :
  user (app w) = Some u →
  calm w →
  ∃ w',
    resetWeek w = (Normal tt, w')
    ∧ issued w' = issued w ++ [DeleteEntriesOfUser (User.id u);
                               DeleteHabitsOfUser (User.id u)]
    ∧ (∀ e, e ∈ Db.habit_entries (db w') → Entry.user_id e ≠ User.id u)
    ∧ (∀ h, h ∈ Db.habits (db w') → Habit.user_id h ≠ User.id u)
    ∧ isOnboarding (app w') = true
    ∧ habits (app w') = []
    ∧ tracker (app w') = ∅
    ∧ habitInputs (app w') = [""; ""; ""; ""; ""].
Proof.
  intros Hu Hc.
  unfold resetWeek, mbind, M_bind, render, try_catch. rewrite Hu.
  unfold supabase.delete_entries_of_user, supabase.delete_habits_of_user.
  rewrite (call_calm _ _ w Hc). cbn [fst snd].
  rewrite call_calm by (by apply calm_after_call).
  eexists. split; [reflexivity|]. cbn.
  repeat split.
  - by rewrite <- app_assoc.
  - intros e [_ He]%list_elem_of_filter.
    by apply list_elem_of_filter in He as [? _].
  - by intros h [? _]%list_elem_of_filter.
Qed.

Lemma resetWeek_clears_witness :
  ∃ w',
    resetWeek Demo.world = (Normal tt, w')
    ∧ issued w' = [DeleteEntriesOfUser "u1"; DeleteHabitsOfUser "u1"]
    ∧ (∀ e, e ∈ Db.habit_entries (db w') → Entry.user_id e ≠ "u1")
    ∧ (∀ h, h ∈ Db.habits (db w') → Habit.user_id h ≠ "u1")
    ∧ isOnboarding (app w') = true
    ∧ habits (app w') = []
    ∧ tracker (app w') = ∅
    ∧ habitInputs (app w') = [""; ""; ""; ""; ""].
Proof.
  apply (resetWeek_clears Demo.world Demo.alice); [reflexivity|].
  unfold calm. simpl. constructor.
Defined.

(** ** Sign-out *)

(** C9, as the code has it: after [signOut] and the auth-change event
    without a session, there is no user, the habit list and the tracker
    are empty and onboarding is active. *)
Theorem signOut_clears (loadUserHabits : string → M unit) (w : World) :
  ∃ w',
    onAuthStateChange loadUserHabits None (after signOut w) = (Normal tt, w')
    ∧ user (app w') = None
    ∧ habits (app w') = []
    ∧ tracker (app w') = ∅
    ∧ isOnboarding (app w') = true.
Proof. eexists. split; [reflexivity|]. done. Qed.

(** C9, as stated, fails on the input slots: what was typed into the
    onboarding form is still there after signing out. *)
Lemma signOut_keeps_inputs :
  let w := Demo.onboarding Demo.typed in
  let w' := after (signOut;;
                   onAuthStateChange (loadUserHabits (loadHabitEntries None)) None) w in
  user (app w') = None
  ∧ habitInputs (app w') = Demo.typed
  ∧ habitInputs (app w') ≠ habitInputs initialState.
Proof. vm_compute. repeat split; discriminate. Qed.

(** ** Toggling a cell *)

Lemma dateOfDay_valid tz weekStart t0 i :
  JsDate.parse weekStart = Some t0 →
  ∃ d, dateOfDay tz weekStart i = Normal d.
Proof. intros E. unfold dateOfDay. rewrite E. simpl. eauto. Qed.

Lemma indexOf_DAYS (i : nat) (day : string) :
  DAYS !! i = Some day → indexOf DAYS day = Z.of_nat i.
Proof.
  intros Hi.
  do 7 (destruct i as [|i]; [by simplify_eq/=|]).
  done.
Qed.

Lemma cell_insert (t : HabitTracker) h day v :
  cell (<[h := <[day := v]> (default ∅ (t !! h))]> t) h day = v.
Proof. unfold cell. rewrite lookup_insert_eq. simpl. by rewrite lookup_insert_eq. Qed.

(** C2 at its failing input: the row is already in [habit_entries] (the
    tracker does not show it), so the insert resolves with the unique
    violation as its [error]; [toggleHabit] does not look at it, flips the
    cell and logs nothing. *)
Example toggleHabit_flips_after_failed_insert :
  let w :=
    mkWorld Demo.tracking
            (Db.mk [Demo.run] [Entry.mk "e1" "h1" "u1" "2024-01-01" true 0] 1)
            [] [] [] [] Demo.wednesday 0 in
  let w' := after (toggleHabit "h1" "Monday") w in
  error (Db.insert_entry (now w) (EntryInsert.mk "h1" "u1" "2024-01-01" true) (db w)).1
    = Some "duplicate key value violates unique constraint"
  ∧ cell (tracker (app w)) "h1" "Monday" = false
  ∧ issued w' = [InsertEntry (EntryInsert.mk "h1" "u1" "2024-01-01" true)]
  ∧ db w' = db w
  ∧ console w' = []
  ∧ cell (tracker (app w')) "h1" "Monday" = true.
Proof. vm_compute. done. Qed.

(** The same for any failure that the transport reports in the response. *)
Lemma toggleHabit_error_response_flips w u habitId day t0 message rest :
  user (app w) = Some u →
  JsDate.parse (weekStartDate (app w)) = Some t0 →
  faults w = ResolvesWithError message :: rest →
  let w' := after (toggleHabit habitId day) w in
  db w' = db w
  ∧ console w' = console w
  ∧ cell (tracker (app w')) habitId day = negb (cell (tracker (app w)) habitId day).
Proof.
  intros Hu Hp Hf.
  destruct (dateOfDay_valid (tza w) _ _ (indexOf DAYS day) Hp) as [d Hd].
  unfold after, toggleHabit, mbind, M_bind, render, timeZone, lift, try_catch.
  rewrite Hu, Hd.
  destruct (cell (tracker (app w)) habitId day) eqn:Hcell;
    unfold supabase.delete_entry, supabase.insert_entry, call; rewrite Hf; cbn;
    repeat split; apply cell_insert.
Qed.

(** Only a rejected promise reaches the [catch]: then the error is logged
    and the tracker stays as it was. *)
Lemma toggleHabit_rejected_keeps_tracker w u habitId day t0 rest :
  user (app w) = Some u →
  JsDate.parse (weekStartDate (app w)) = Some t0 →
  faults w = Rejects :: rest →
  let w' := after (toggleHabit habitId day) w in
  app w' = app w
  ∧ db w' = db w
  ∧ console w' = console w ++ ["Error toggling habit:"].
Proof.
  intros Hu Hp Hf.
  destruct (dateOfDay_valid (tza w) _ _ (indexOf DAYS day) Hp) as [d Hd].
  unfold after, toggleHabit, mbind, M_bind, render, timeZone, lift, try_catch.
  rewrite Hu, Hd.
  destruct (cell (tracker (app w)) habitId day) eqn:Hcell;
    unfold supabase.delete_entry, supabase.insert_entry, call; rewrite Hf; cbn;
    by destruct (app w).
Qed.

Section ToggleParity.
Variables (u : User.t) (habitId day d : string).

Lemma toggleHabit_synced b w :
  synced u habitId day d b w →
  ∃ w', toggleHabit habitId day w = (Normal tt, w')
        ∧ synced u habitId day d (negb b) w'
        ∧ Db.habits (db w') = Db.habits (db w).
Proof.
  intros (Hu & Hc & Hfk & Hd & Hcell & Hkeys).
  unfold toggleHabit, mbind, M_bind, render, timeZone, lift, try_catch.
  rewrite Hu, Hd, Hcell.
  destruct b.
  - unfold supabase.delete_entry. rewrite (call_calm _ _ w Hc).
    eexists. split; [reflexivity|]. cbn.
    split; [|done].
    repeat split; try done.
    + by apply calm_after_call.
    + apply cell_insert.
    + unfold entryKeys in *. simpl.
      destruct (Db.habit_entries (db w)) as [|e [|e' l]]; simplify_eq/=.
      rewrite filter_cons_False; [done|].
      intros Hn. apply Hn. by destruct e; simplify_eq/=.
  - unfold supabase.insert_entry. rewrite (call_calm _ _ w Hc).
    unfold Db.insert_entry. cbn [EntryInsert.habit_id EntryInsert.user_id
                                 EntryInsert.date EntryInsert.completed].
    rewrite decide_True by done.
    assert (Db.habit_entries (db w) = []) as He.
    { unfold entryKeys in Hkeys. by destruct (Db.habit_entries (db w)). }
    rewrite He.
    rewrite decide_False by (by intros ?%Exists_nil).
    eexists. split; [reflexivity|]. cbn.
    split; [|done].
    repeat split; try done.
    + by apply calm_after_call.
    + apply cell_insert.
Qed.

Lemma clicks_synced n b w :
  synced u habitId day d b w →
  ∃ w', clicks n habitId day w = (Normal tt, w')
        ∧ synced u habitId day d (xorb b (Nat.odd n)) w'
        ∧ Db.habits (db w') = Db.habits (db w).
Proof.
  revert b w. induction n as [|n IH]; intros b w Hs.
  - exists w. by rewrite xorb_false_r.
  - destruct (toggleHabit_synced b w Hs) as (w1 & E1 & Hs1 & Hh1).
    destruct (IH _ _ Hs1) as (w2 & E2 & Hs2 & Hh2).
    exists w2. split; [|split].
    + simpl. unfold mbind, M_bind. by rewrite E1.
    + rewrite Nat.odd_succ, <- Nat.negb_odd. by destruct b, (Nat.odd n).
    + congruence.
Qed.
End ToggleParity.

(** Clicks on one cell, handled one after the other without transport
    faults, starting with no entry rows and the cell unchecked. The row of
    the cell is keyed by the date [d] that the code computes for the day;
    that is the date of the day (the week start plus the index of the
    day) or the date before it, and it is the date of the day in a zone
    that never changes its clocks. After [n] clicks the entries table
    holds exactly the completed row [(habitId, userId, d)] when [n] is odd
    and no row when [n] is even, the cell shows checked exactly when [n]
    is odd, and two further clicks give the same rows, the same habits and
    the same cell value. *)
Theorem toggle_parity (w : World) (u : User.t) (habitId day : string) (i : nat)
    (t0 : Z) (n : nat) :
  user (app w) = Some u →
  calm w →
  habitId ∈ Habit.id <$> Db.habits (db w) →
  Db.habit_entries (db w) = [] →
  cell (tracker (app w)) habitId day = false →
  JsDate.parse (weekStartDate (app w)) = Some t0 →
  DAYS !! i = Some day →
  ∃ d w' w'',
    dateOfDay (tza w) (weekStartDate (app w)) (indexOf DAYS day) = Normal d
    ∧ (d = JsDate.isoDate (JsDate.Day t0 + Z.of_nat i)
       ∨ d = JsDate.isoDate (JsDate.Day t0 + Z.of_nat i - 1))
    ∧ (∀ offset, tza w = JsDate.fixed offset →
         d = JsDate.isoDate (JsDate.Day t0 + Z.of_nat i))
    ∧ clicks n habitId day w = (Normal tt, w')
    ∧ entryKeys (db w') =
        (if Nat.odd n then [(habitId, User.id u, d, true)] else [])
    ∧ cell (tracker (app w')) habitId day = Nat.odd n
    ∧ clicks (S (S n)) habitId day w = (Normal tt, w'')
    ∧ entryKeys (db w'') = entryKeys (db w')
    ∧ Db.habits (db w'') = Db.habits (db w')
    ∧ cell (tracker (app w'')) habitId day = cell (tracker (app w')) habitId day.
Proof.
  intros Hu Hc Hfk He Hcell Hp Hi.
  destruct (dateOfDay_valid (tza w) _ _ (indexOf DAYS day) Hp) as [d Hd].
  assert (synced u habitId day d false w) as Hs.
  { repeat split; try done. unfold entryKeys. by rewrite He. }
  destruct (clicks_synced u habitId day d n _ _ Hs)
    as (w' & E & (_ & _ & _ & _ & Hcell' & Hkeys') & Hh).
  destruct (clicks_synced u habitId day d (S (S n)) _ _ Hs)
    as (w'' & E' & (_ & _ & _ & _ & Hcell'' & Hkeys'') & Hh').
  rewrite Nat.odd_succ, Nat.even_succ in Hcell'', Hkeys''.
  simpl in *.
  exists d, w', w''.
  split; [done|]. split; [|split].
  - rewrite (indexOf_DAYS _ _ Hi) in Hd.
    destruct (dateOfDay_near (tza w) _ _ (Z.of_nat i) Hp) as [E1 | E1];
      rewrite Hd in E1; injection E1 as ->; auto.
  - intros offset Hz. rewrite Hz, (indexOf_DAYS _ _ Hi) in Hd.
    rewrite (dateOfDay_parsed _ _ _ _ Hp) in Hd. by injection Hd.
  - repeat split; try done; congruence.
Qed.

Lemma toggle_parity_witness :
  ∃ d w' w'',
    dateOfDay 0 "2024-01-01" (indexOf DAYS "Tuesday") = Normal d
    ∧ (d = JsDate.isoDate (JsDate.Day 1704067200000 + 1)
       ∨ d = JsDate.isoDate (JsDate.Day 1704067200000 + 1 - 1))
    ∧ (∀ offset, JsDate.fixed 0 = JsDate.fixed offset →
         d = JsDate.isoDate (JsDate.Day 1704067200000 + 1))
    ∧ clicks 3 "h1" "Tuesday" Demo.world = (Normal tt, w')
    ∧ entryKeys (db w') = [("h1", "u1", d, true)]
    ∧ cell (tracker (app w')) "h1" "Tuesday" = true
    ∧ clicks 5 "h1" "Tuesday" Demo.world = (Normal tt, w'')
    ∧ entryKeys (db w'') = entryKeys (db w')
    ∧ Db.habits (db w'') = Db.habits (db w')
    ∧ cell (tracker (app w'')) "h1" "Tuesday"
      = cell (tracker (app w')) "h1" "Tuesday".
Proof.
  apply (toggle_parity Demo.world Demo.alice "h1" "Tuesday" 1 1704067200000 3);
    try reflexivity.
  - unfold calm. simpl. constructor.
  - simpl. apply list_elem_of_here.
Defined.

(** C1 at its failing input: Sydney, in the week of Monday 30 September
    2024, which is the week start the component computes there on the
    Wednesday; the clocks go forward on Sunday 6 October. A click on the
    Sunday cell inserts a row dated 2024-10-05, the Saturday, and so does a
    click on the Saturday cell; the date of the Sunday, six days after the
    week start, is 2024-10-06. *)
Example toggleHabit_sunday_dated_saturday :
  let w := Demo.sydneyWeek in
  let sunday := after (toggleHabit "h1" "Sunday") w in
  let saturday := after (toggleHabit "h1" "Saturday") w in
  getCurrentWeekStart_at (tza w) (now w) = Normal (weekStartDate (app w))
  ∧ JsDate.parse (weekStartDate (app w)) = Some (19996 * JsDate.msPerDay)
  ∧ DAYS !! 6%nat = Some "Sunday"
  ∧ JsDate.isoDate (19996 + 6) = "2024-10-06"
  ∧ issued sunday = [InsertEntry (EntryInsert.mk "h1" "u1" "2024-10-05" true)]
  ∧ entryKeys (db sunday) = [("h1", "u1", "2024-10-05", true)]
  ∧ cell (tracker (app sunday)) "h1" "Sunday" = true
  ∧ entryKeys (db saturday) = [("h1", "u1", "2024-10-05", true)].
Proof. vm_compute. done. Qed.

(** What follows there from the shared date: with Saturday checked, a
    click on Sunday checks the cell although its insert fails on the
    unique key, and a second click on Sunday deletes Saturday's row; the
    Saturday cell still shows checked over an empty table. *)
Example weekend_cells_share_a_row :
  let w1 := after (toggleHabit "h1" "Saturday") Demo.sydneyWeek in
  let w2 := after (toggleHabit "h1" "Sunday") w1 in
  let w3 := after (toggleHabit "h1" "Sunday") w2 in
  entryKeys (db w2) = [("h1", "u1", "2024-10-05", true)]
  ∧ cell (tracker (app w2)) "h1" "Saturday" = true
  ∧ cell (tracker (app w2)) "h1" "Sunday" = true
  ∧ entryKeys (db w3) = []
  ∧ cell (tracker (app w3)) "h1" "Saturday" = true
  ∧ cell (tracker (app w3)) "h1" "Sunday" = false.
Proof. vm_compute. done. Qed.

(** ** Onboarding *)

Lemma filter_all {A} (P : A → Prop) `{∀ x, Decision (P x)} (l : list A) :
  Forall P l → filter P l = l.
Proof.
  induction 1 as [|x l Hx _ IH]; [done|].
  by rewrite filter_cons_True, IH.
Qed.

Lemma new_habits_length now n rows :
  length (Db.new_habits now n rows) = length rows.
Proof. revert n. induction rows as [|r rows IH]; intros n; simpl; [done|]. by rewrite IH. Qed.

Lemma new_habits_names now n rows :
  Habit.name <$> Db.new_habits now n rows = HabitInsert.name <$> rows.
Proof. revert n. induction rows as [|r rows IH]; intros n; simpl; [done|]. by rewrite IH. Qed.

Lemma new_habits_owner now n rows u :
  Forall (λ r, HabitInsert.user_id r = u) rows →
  Forall (λ h, Habit.user_id h = u) (Db.new_habits now n rows).
Proof.
  intros Hall. revert n. induction Hall as [|r rows Hr _ IH]; intros n; simpl.
  - constructor.
  - constructor; [done|apply IH].
Qed.

Lemma getCurrentWeekStart_at_returns tz today :
  ∃ s, getCurrentWeekStart_at tz today = Normal s.
Proof.
  unfold getCurrentWeekStart_at. simpl.
  case_decide; simpl; eauto.
Qed.

(** A complete form: the batch is inserted, the returned rows become the
    habit list, the tracker is emptied and onboarding ends. *)
Lemma handleOnboardingSubmit_complete (w : World) (u : User.t) :
  user (app w) = Some u →
  calm w →
  length (habitInputs (app w)) = 5%nat →
  Forall (λ s, Js.trim s ≠ "") (habitInputs (app w)) →
  ∃ w' newHabits,
    handleOnboardingSubmit w = (Normal tt, w')
    ∧ issued w' = issued w ++
        [InsertHabits ((λ s, HabitInsert.mk (User.id u) (Js.trim s))
                         <$> habitInputs (app w))]
    ∧ Db.habits (db w') = Db.habits (db w) ++ newHabits
    ∧ length newHabits = 5%nat
    ∧ Habit.name <$> newHabits = Js.trim <$> habitInputs (app w)
    ∧ Forall (λ h, Habit.user_id h = User.id u) newHabits
    ∧ habits (app w') = newHabits
    ∧ tracker (app w') = ∅
    ∧ isOnboarding (app w') = false.
Proof.
  intros Hu Hc Hlen Hall.
  unfold handleOnboardingSubmit, mbind, M_bind, render, try_catch. rewrite Hu.
  rewrite (filter_all _ _ Hall).
  rewrite decide_True by done.
  unfold supabase.insert_habits. rewrite (call_calm _ _ w Hc).
  cbn [Db.insert_habits fst snd error data Db.ok].
  unfold getCurrentWeekStart, mbind, M_bind, timeZone, Date_now, lift.
  cbn [setHabits setTracker update app now tza].
  destruct (getCurrentWeekStart_at_returns (tza w) (now w)) as [s ->].
  eexists _, _. split; [reflexivity|]. cbn.
  repeat split.
  - by rewrite new_habits_length, length_fmap.
  - rewrite new_habits_names, <- list_fmap_compose. done.
  - apply new_habits_owner. by apply Forall_fmap, Forall_true.
Qed.

(** An incomplete form: nothing is sent and nothing changes. *)
Lemma handleOnboardingSubmit_incomplete (w : World) :
  length (filter (λ s, Js.trim s ≠ "") (habitInputs (app w))) ≠ 5%nat →
  handleOnboardingSubmit w = (Normal tt, w).
Proof.
  intros Hlen.
  unfold handleOnboardingSubmit, mbind, M_bind, render.
  destruct (user (app w)); [|done].
  by rewrite decide_False.
Qed.

(** C3: with an authenticated user and a store that answers, a form whose
    five slots are all non-empty after trimming makes [handleOnboardingSubmit]
    insert exactly five habit rows named by the trimmed inputs, take the
    returned rows as the habit list, empty the tracker and leave onboarding;
    a form with fewer than five non-empty names changes nothing: onboarding
    stays as it is and no request is issued. *)
Theorem onboarding_submit (w : World) (u : User.t) :
  user (app w) = Some u →
  calm w →
  length (habitInputs (app w)) = 5%nat →
  (Forall (λ s, Js.trim s ≠ "") (habitInputs (app w)) →
   ∃ w' newHabits,
     handleOnboardingSubmit w = (Normal tt, w')
     ∧ issued w' = issued w ++
         [InsertHabits ((λ s, HabitInsert.mk (User.id u) (Js.trim s))
                          <$> habitInputs (app w))]
     ∧ Db.habits (db w') = Db.habits (db w) ++ newHabits
     ∧ length newHabits = 5%nat
     ∧ Habit.name <$> newHabits = Js.trim <$> habitInputs (app w)
     ∧ Forall (λ h, Habit.user_id h = User.id u) newHabits
     ∧ habits (app w') = newHabits
     ∧ tracker (app w') = ∅
     ∧ isOnboarding (app w') = false)
  ∧ ((length (filter (λ s, Js.trim s ≠ "") (habitInputs (app w))) < 5)%nat →
     handleOnboardingSubmit w = (Normal tt, w)).
Proof.
  intros Hu Hc Hlen. split.
  - by apply handleOnboardingSubmit_complete.
  - intros Hlt. apply handleOnboardingSubmit_incomplete. lia.
Qed.

Lemma onboarding_submit_witness :
  (∃ w' newHabits,
     handleOnboardingSubmit (Demo.onboarding Demo.typed) = (Normal tt, w')
     ∧ issued w' =
         [InsertHabits ((λ s, HabitInsert.mk "u1" (Js.trim s)) <$> Demo.typed)]
     ∧ Db.habits (db w') = newHabits
     ∧ length newHabits = 5%nat
     ∧ Habit.name <$> newHabits = ["Run"; "Read"; "Sleep"; "Stretch"; "Write"]
     ∧ Forall (λ h, Habit.user_id h = "u1") newHabits
     ∧ habits (app w') = newHabits
     ∧ tracker (app w') = ∅
     ∧ isOnboarding (app w') = false)
  ∧ handleOnboardingSubmit (Demo.onboarding ["Run"; "  "; ""; "Read"; ""])
    = (Normal tt, Demo.onboarding ["Run"; "  "; ""; "Read"; ""]).
Proof.
  split.
  - apply (onboarding_submit (Demo.onboarding Demo.typed) Demo.alice);
      [reflexivity | constructor | reflexivity |].
    repeat (constructor; [by vm_compute|]). constructor.
  - apply (onboarding_submit (Demo.onboarding ["Run"; "  "; ""; "Read"; ""]) Demo.alice);
      [reflexivity | constructor | reflexivity |].
    vm_compute. lia.
Defined.

(** ** Weekly progress *)

Lemma bit_range b : 0 ≤ bit b ≤ 1.
Proof. destruct b; simpl; lia. Qed.

(** The cells of one habit that are checked: between 0 and 7. *)
Lemma week_of_habit_range (t : HabitTracker) h :
  0 ≤ foldl (λ daySum day, daySum + bit (cell t h day)) 0 DAYS ≤ 7.
Proof.
  simpl.
  pose proof (bit_range (cell t h "Monday")).
  pose proof (bit_range (cell t h "Tuesday")).
  pose proof (bit_range (cell t h "Wednesday")).
  pose proof (bit_range (cell t h "Thursday")).
  pose proof (bit_range (cell t h "Friday")).
  pose proof (bit_range (cell t h "Saturday")).
  pose proof (bit_range (cell t h "Sunday")).
  lia.
Qed.

Lemma completed_fold_range (t : HabitTracker) (hs : list Habit.t) (acc : Z) :
  acc ≤ foldl (λ sum habit,
                 sum + foldl (λ daySum day,
                                daySum + bit (cell t (Habit.id habit) day)) 0 DAYS)
              acc hs
      ≤ acc + 7 * Z.of_nat (length hs).
Proof.
  revert acc. induction hs as [|h hs IH]; intros acc.
  - simpl. lia.
  - cbn [foldl length].
    pose proof (week_of_habit_range t (Habit.id h)).
    specialize (IH (acc + foldl (λ daySum day,
                            daySum + bit (cell t (Habit.id h) day)) 0 DAYS)).
    lia.
Qed.

Lemma completedCells_range st :
  0 ≤ completedCells st ≤ 7 * Z.of_nat (length (habits st)).
Proof. unfold completedCells. pose proof (completed_fold_range (tracker st) (habits st) 0). lia. Qed.

Lemma Math_round_Qeq (p q : Q) : (p == q)%Q → Js.Math_round p = Js.Math_round q.
Proof. intros E. unfold Js.Math_round. apply Qfloor_comp. by rewrite E. Qed.

(** Rounding a percentage, in integers. *)
Lemma percentOf_floor a b : 0 < b → percentOf a b = (200 * a + b) / (2 * b).
Proof.
  intros Hb. destruct b as [|p|p]; try lia.
  unfold percentOf, Js.Math_round.
  rewrite (Qfloor_comp _ ((200 * a + Z.pos p) # (2 * p))).
  - reflexivity.
  - unfold Qeq, Qdiv, Qmult, Qplus, Qinv, inject_Z. simpl. lia.
Qed.

Lemma percentOf_range a b : 0 ≤ a ≤ b → 0 < b → 0 ≤ percentOf a b ≤ 100.
Proof.
  intros Ha Hb. rewrite percentOf_floor by done. split.
  - apply Z.div_pos; lia.
  - apply Z.lt_succ_r. apply Z.div_lt_upper_bound; lia.
Qed.

Lemma getWeeklyProgress_unfold st :
  getWeeklyProgress st =
    if 0 <? Z.of_nat (length (habits st)) * 7
    then percentOf (completedCells st) (Z.of_nat (length (habits st)) * 7)
    else 0.
Proof. reflexivity. Qed.

(** Below 40 habits the doubles of the last line round to the exact
    figure: for each number of habits from 1 to 39 and each count of
    checked cells, from none to all of them. *)
Lemma percentOf_double_checked :
  Forall (λ n, Forall (λ cells, percentOf_double cells (n * 7)
                                = percentOf cells (n * 7))
                      (seqZ 0 (n * 7 + 1)))
         (seqZ 1 39).
Proof. apply (bool_decide_unpack _). by vm_compute. Qed.

Lemma percentOf_double_exact (n cells : Z) :
  1 ≤ n < 40 → 0 ≤ cells ≤ n * 7 →
  percentOf_double cells (n * 7) = percentOf cells (n * 7).
Proof.
  intros Hn Hcells.
  pose proof percentOf_double_checked as Hall.
  rewrite Forall_forall in Hall.
  specialize (Hall n). rewrite Forall_forall in Hall.
  apply Hall; apply elem_of_seqZ; lia.
Qed.

(** So do the doubles of a summary card, whose denominator is 7. *)
Lemma percentOf_double_card (cells : Z) :
  0 ≤ cells ≤ 7 → percentOf_double cells 7 = percentOf cells 7.
Proof. intros Hcells. apply (percentOf_double_exact 1); lia. Qed.

(** With 40 habits they part: 161 of 280 cells are 57.5 percent, which
    rounds to 58; in doubles the product falls just below 57.5 and rounds
    to 57. *)
Example percentOf_double_at_40 :
  percentOf 161 (40 * 7) = 58 ∧ percentOf_double 161 (40 * 7) = 57.
Proof. by vm_compute. Qed.

Lemma getWeeklyProgress_double_unfold st :
  getWeeklyProgress_double st =
    if 0 <? Z.of_nat (length (habits st)) * 7
    then percentOf_double (completedCells st) (Z.of_nat (length (habits st)) * 7)
    else 0.
Proof. reflexivity. Qed.

(** C4, as the code has it, for fewer than 40 habits: the denominator is
    seven times the number of habits in the list, which is 35 for five
    habits; the figure the doubles of the code give is then exactly
    [round(100 * completedCells / (habits * 7))], it lies in 0..100, and
    it is 0 for an empty list. *)
Theorem weekly_progress (st : AppState) :
  (length (habits st) < 40)%nat →
  getWeeklyProgress_double st = getWeeklyProgress st
  ∧ getWeeklyProgress st =
      (if decide (habits st = []) then 0
       else Js.Math_round (inject_Z 100 * inject_Z (completedCells st)
                           / inject_Z (Z.of_nat (length (habits st)) * 7))%Q)
  ∧ 0 ≤ getWeeklyProgress st ≤ 100
  ∧ (habits st = [] → getWeeklyProgress st = 0)
  ∧ (length (habits st) = 5%nat → getWeeklyProgress st = weeklyProgress_spec st).
Proof.
  intros Hfew.
  rewrite getWeeklyProgress_double_unfold, getWeeklyProgress_unfold.
  pose proof (completedCells_range st) as Hc.
  destruct (habits st) as [|h hs] eqn:Hh.
  - destruct (decide _); [|done]. simpl. repeat split; done || lia.
  - destruct (decide _) as [|_]; [done|].
    set (len := Z.of_nat (length (h :: hs))) in *.
    assert (0 < len * 7) as Hlen by (subst len; simpl; lia).
    replace (0 <? len * 7) with true by (symmetry; by apply Z.ltb_lt).
    assert (percentOf (completedCells st) (len * 7)
            = Js.Math_round (inject_Z 100 * inject_Z (completedCells st)
                             / inject_Z (len * 7))%Q) as Hround.
    { unfold percentOf. apply Math_round_Qeq. field.
      intros E. unfold Qeq, inject_Z in E. simpl in E. lia. }
    split; [apply percentOf_double_exact; subst len; simpl in *; lia|].
    repeat split.
    + done.
    + apply percentOf_range; lia.
    + apply percentOf_range; lia.
    + done.
    + intros H5. rewrite Hround. unfold weeklyProgress_spec.
      subst len. by rewrite H5.
Qed.

Lemma weekly_progress_witness :
  getWeeklyProgress initialState = 0
  ∧ getWeeklyProgress_double
      (mkApp (Some Demo.alice) false false
             (replicate 5 Demo.run) (<["h1" := <["Monday" := true]> ∅]> ∅)
             "2024-01-01" [])
    = getWeeklyProgress
        (mkApp (Some Demo.alice) false false
               (replicate 5 Demo.run) (<["h1" := <["Monday" := true]> ∅]> ∅)
               "2024-01-01" [])
  ∧ getWeeklyProgress
      (mkApp (Some Demo.alice) false false
             (replicate 5 Demo.run) (<["h1" := <["Monday" := true]> ∅]> ∅)
             "2024-01-01" [])
    = weeklyProgress_spec
        (mkApp (Some Demo.alice) false false
               (replicate 5 Demo.run) (<["h1" := <["Monday" := true]> ∅]> ∅)
               "2024-01-01" []).
Proof.
  split.
  - destruct (weekly_progress initialState) as (_ & _ & _ & Hempty & _);
      [simpl; lia|].
    apply Hempty. reflexivity.
  - destruct (weekly_progress
                (mkApp (Some Demo.alice) false false
                       (replicate 5 Demo.run) (<["h1" := <["Monday" := true]> ∅]> ∅)
                       "2024-01-01" [])) as (Hdouble & _ & _ & _ & Hfive);
      [simpl; lia|].
    split; [exact Hdouble|]. apply Hfive. reflexivity.
Defined.

(** C4, as stated, divides by 35 whatever the list: with one habit checked
    on all seven days the component shows 100, the formula gives 20. *)
Lemma weekly_progress_not_over_35 :
  let st :=
    mkApp (Some Demo.alice) false false [Demo.run]
          (<["h1" := list_to_map ((λ day, (day, true)) <$> DAYS)]> ∅)
          "2024-01-01" [] in
  getWeeklyProgress st = 100
  ∧ weeklyProgress_spec st = 20
  ∧ getWeeklyProgress st ≠ weeklyProgress_spec st.
Proof. vm_compute. repeat split. discriminate. Qed.

(** ** Export *)

Lemma Number_toString_bit b : Js.Number_toString (bit b) = if b then "1" else "0".
Proof. by destruct b. Qed.

(** [statData] once both loops have run. *)
Lemma statOf_filled st h :
  statOf st h =
    <["Sunday" := Num (bit (cell (tracker st) (Habit.id h) "Sunday"))]>
    (<["Saturday" := Num (bit (cell (tracker st) (Habit.id h) "Saturday"))]>
    (<["Friday" := Num (bit (cell (tracker st) (Habit.id h) "Friday"))]>
    (<["Thursday" := Num (bit (cell (tracker st) (Habit.id h) "Thursday"))]>
    (<["Wednesday" := Num (bit (cell (tracker st) (Habit.id h) "Wednesday"))]>
    (<["Tuesday" := Num (bit (cell (tracker st) (Habit.id h) "Tuesday"))]>
    (<["Monday" := Num (bit (cell (tracker st) (Habit.id h) "Monday"))]>
    (<["percentage" := Num (habitSummary st h).2]>
    (<["total" := Num (habitSummary st h).1]>
    (<["habit" := Str (Habit.name h)]> ∅))))))))).
Proof. reflexivity. Qed.

Lemma csvRow_statOf st h : csvRow (statOf st h) = summaryRow st h.
Proof.
  rewrite statOf_filled.
  unfold csvRow, summaryRow, prop.
  cbn [DAYS fmap list_fmap app].
  repeat (rewrite lookup_insert_eq || rewrite lookup_insert_ne by done).
  cbn [default from_option joinText templateText id].
  by rewrite !Number_toString_bit.
Qed.

(** The checked cells of a habit, counted. *)
Lemma habitSummary_counts st h :
  (habitSummary st h).1
  = Z.of_nat (length (filter (λ day, cell (tracker st) (Habit.id h) day = true) DAYS))
  ∧ (habitSummary st h).2
    = Js.Math_round (inject_Z 100 * inject_Z (habitSummary st h).1 / inject_Z 7)%Q.
Proof.
  split.
  - unfold habitSummary, DAYS. cbn [fst foldl].
    rewrite !filter_cons, filter_nil.
    destruct (cell (tracker st) (Habit.id h) "Monday"),
             (cell (tracker st) (Habit.id h) "Tuesday"),
             (cell (tracker st) (Habit.id h) "Wednesday"),
             (cell (tracker st) (Habit.id h) "Thursday"),
             (cell (tracker st) (Habit.id h) "Friday"),
             (cell (tracker st) (Habit.id h) "Saturday"),
             (cell (tracker st) (Habit.id h) "Sunday"); reflexivity.
  - unfold habitSummary. cbn [fst snd]. unfold percentOf.
    apply Math_round_Qeq. field.
Qed.

(** C6: the export is the header line followed by one line per habit of
    the list, in order; the line of a habit carries its name, the seven day
    cells as 1 or 0, and the completed count and percentage of the habit's
    summary card (the count of checked cells, and [round(100 * count / 7)]
    followed by a percent sign); the file is named after the week start. *)
Theorem export_matches_summary (st : AppState) :
  csvHeader
  = "Habit,Monday,Tuesday,Wednesday,Thursday,Friday,Saturday,Sunday,Total,Percentage"
  ∧ content (downloadStats st)
    = Js.join newline (csvHeader :: (summaryRow st <$> habits st))
  ∧ length (summaryRow st <$> habits st) = length (habits st)
  ∧ (∀ h,
       (habitSummary st h).1
       = Z.of_nat (length (filter (λ day, cell (tracker st) (Habit.id h) day = true)
                                  DAYS))
       ∧ (habitSummary st h).2
         = Js.Math_round (inject_Z 100 * inject_Z (habitSummary st h).1
                          / inject_Z 7)%Q)
  ∧ download (downloadStats st) = "habit-tracker-" +:+ weekStartDate st +:+ ".csv"
  ∧ type (downloadStats st) = "text/csv".
Proof.
  split; [reflexivity|].
  split.
  - unfold downloadStats. cbn [content].
    rewrite <- list_fmap_compose.
    apply (f_equal (λ rows, Js.join newline (csvHeader :: rows))).
    apply list_fmap_ext. intros _ h _. apply csvRow_statOf.
  - split; [apply length_fmap|].
    split; [apply habitSummary_counts|done].
Qed.

(** ** The tracker that [loadHabitEntries] builds *)

Lemma forEach_pure {A B} (f : B → A → Completion B) (g : B → A → B) xs acc :
  (∀ acc x, x ∈ xs → f acc x = Normal (g acc x)) →
  forEach f xs acc = Normal (foldl g acc xs).
Proof.
  revert acc. induction xs as [|x xs IH]; intros acc Hfg; [done|].
  simpl. rewrite Hfg by apply list_elem_of_here. simpl.
  apply IH. intros acc' y Hy. apply Hfg. by apply list_elem_of_further.
Qed.

Lemma dateOfDay_dateString tz weekStart t0 (i : nat) :
  JsDate.parse weekStart = Some t0 →
  dateOfDay tz weekStart (Z.of_nat i) = Normal (dateString tz weekStart i).
Proof.
  intros Hp. unfold dateString.
  by destruct (dateOfDay_valid tz _ _ (Z.of_nat i) Hp) as [d ->].
Qed.

Lemma buildTracker_grid tz hs weekStart t0 entriesData :
  JsDate.parse weekStart = Some t0 →
  buildTracker tz hs weekStart entriesData
  = Normal (gridOf entriesData (dateString tz weekStart) hs ∅).
Proof.
  intros Hp. unfold buildTracker, gridOf.
  apply forEach_pure. intros acc h _.
  erewrite (forEach_pure _
    (λ (row : gmap string bool) '(dayIndex, dayName),
       <[dayName := default false
           (Entry.completed <$>
              findEntry entriesData (Habit.id h)
                (dateString tz weekStart dayIndex))]> row)).
  - reflexivity.
  - intros row [i day] (j & y & [= -> ->] & Hj)%elem_of_lookup_imap.
    rewrite (dateOfDay_dateString _ _ _ _ Hp). simpl. by rewrite Hj.
Qed.

Lemma gridOf_lookup entriesData dateOf hs (acc : HabitTracker) k :
  gridOf entriesData dateOf hs acc !! k =
    if decide (k ∈ Habit.id <$> hs) then Some (rowOf entriesData dateOf k)
    else acc !! k.
Proof.
  unfold gridOf. revert acc. induction hs as [|h hs IH]; intros acc; [done|].
  cbn [foldl fmap list_fmap]. rewrite IH.
  destruct (decide (k ∈ Habit.id <$> hs)) as [Hin|Hout].
  - rewrite decide_True; [done|]. by apply list_elem_of_further.
  - destruct (decide (k = Habit.id h)) as [->|Hne].
    + rewrite lookup_insert_eq, decide_True; [done|]. apply list_elem_of_here.
    + rewrite lookup_insert_ne by done.
      rewrite decide_False; [done|]. by intros [?|?]%elem_of_cons.
Qed.

Lemma rowOf_filled entriesData (dateOf : nat → string) k :
  rowOf entriesData dateOf k =
    let v (i : nat) :=
      default false (Entry.completed <$> findEntry entriesData k (dateOf i)) in
    <["Sunday" := v 6%nat]> (<["Saturday" := v 5%nat]> (<["Friday" := v 4%nat]>
    (<["Thursday" := v 3%nat]> (<["Wednesday" := v 2%nat]>
    (<["Tuesday" := v 1%nat]> (<["Monday" := v 0%nat]> ∅)))))).
Proof. reflexivity. Qed.

Lemma rowOf_dom entriesData dateOf k :
  dom (rowOf entriesData dateOf k) = list_to_set (C := gset string) DAYS.
Proof.
  rewrite rowOf_filled. cbv zeta. rewrite !dom_insert_L, dom_empty_L.
  unfold DAYS. cbn [list_to_set]. set_solver.
Qed.

Lemma rowOf_lookup entriesData dateOf k i day :
  DAYS !! i = Some day →
  rowOf entriesData dateOf k !! day =
    Some (default false
            (Entry.completed <$> findEntry entriesData k (dateOf i))).
Proof.
  intros Hi. rewrite rowOf_filled. cbv zeta.
  do 7 (destruct i as [|i]; [simplify_eq/=;
    repeat (rewrite lookup_insert_eq || rewrite lookup_insert_ne by done); done|]).
  done.
Qed.

Lemma gridOf_full entriesData dateOf hs :
  fullGrid hs (gridOf entriesData dateOf hs ∅).
Proof.
  split.
  - apply set_eq. intros k.
    rewrite elem_of_dom, gridOf_lookup, elem_of_list_to_set, lookup_empty.
    case_decide; split; try done; by intros [? ?].
  - intros k row. rewrite gridOf_lookup, lookup_empty.
    case_decide; [|done]. intros [= <-]. apply rowOf_dom.
Qed.

(** The last day of the week, as [loadHabitEntries] renders it, is a date
    the tables can compare with. *)
Lemma weekEnd_parses (zone : JsDate.Zone) (weekStart : string) (t0 : Z) :
  JsDate.parse weekStart = Some t0 →
  firstDay - 1 ≤ JsDate.Day t0 + 5 →
  JsDate.Day t0 + 6 ≤ lastDay + 1 →
  ∃ t6,
    JsDate.parse
      (JsDate.isoDate
         (JsDate.Day (JsDate.UTC zone (JsDate.LocalTime zone t0
                                       + 6 * JsDate.msPerDay))))
    = Some t6.
Proof.
  intros Hp Hlow Hhigh.
  destruct (parse_midnight _ _ Hp) as [day0 ->]. rewrite Day_of_days in *.
  destruct (Day_moved_midnight zone day0 6) as [-> | ->];
    eexists; apply parse_isoDate_around; lia.
Qed.

(** A load that the transport lets through, for a week from a valid date
    that ends before the year 10000: the entries of the week are fetched
    and the tracker is replaced by their grid. *)
Lemma loadHabitEntries_grid (w : World) closureUser hs weekStart t0 :
  calm w →
  JsDate.parse weekStart = Some t0 →
  0 ≤ (JsDate.civil_of_day (JsDate.Day t0 + 6)).1.1 ≤ 9999 →
  ∃ w' rows,
    loadHabitEntries closureUser hs weekStart w = (Normal tt, w')
    ∧ rows ⊆ Db.habit_entries (db w)
    ∧ tracker (app w') = gridOf (Some rows) (dateString (tza w) weekStart) hs ∅
    ∧ db w' = db w
    ∧ console w' = console w.
Proof.
  intros Hc Hp Hy. apply year_of_day_range in Hy.
  destruct (weekEnd_parses (tza w) _ _ Hp) as [t6 H6]; [lia..|].
  unfold loadHabitEntries, try_catch, mbind, M_bind, timeZone, lift.
  rewrite Hp, setDate_getDate. cbn [JsDateIso.toISODate].
  unfold supabase.select_entries. rewrite (call_calm _ _ w Hc).
  unfold Db.select_entries. rewrite Hp, H6.
  cbn [fst snd error data Db.ok tza].
  rewrite (buildTracker_grid _ _ _ _ _ Hp).
  eexists _, _. split; [reflexivity|]. cbn.
  repeat split; try done.
  intros e [_ He]%list_elem_of_filter. done.
Qed.

(** C5, as the code has it: a successful [loadHabitEntries] leaves a
    tracker with exactly one key per habit, each mapping exactly the seven
    day names to booleans, false for every day without a matching entry
    row; a successful onboarding submission leaves onboarding complete with
    five habits and an empty tracker, whose cells read as false by
    default. *)
Theorem tracker_after_load_and_onboarding :
  (∀ (w : World) closureUser hs weekStart t0,
     calm w →
     JsDate.parse weekStart = Some t0 →
     0 ≤ (JsDate.civil_of_day (JsDate.Day t0 + 6)).1.1 ≤ 9999 →
     ∃ w',
       loadHabitEntries closureUser hs weekStart w = (Normal tt, w')
       ∧ fullGrid hs (tracker (app w'))
       ∧ ∀ h i day d,
           h ∈ hs → DAYS !! i = Some day →
           dateOfDay (tza w) weekStart (Z.of_nat i) = Normal d →
           (∀ e, e ∈ Db.habit_entries (db w) →
                 ¬ (Entry.habit_id e = Habit.id h ∧ Entry.date e = d)) →
           tracker (app w') !! Habit.id h ≫= (.!! day) = Some false)
  ∧ (∀ (w : World) u,
       user (app w) = Some u →
       calm w →
       length (habitInputs (app w)) = 5%nat →
       Forall (λ s, Js.trim s ≠ "") (habitInputs (app w)) →
       ∃ w',
         handleOnboardingSubmit w = (Normal tt, w')
         ∧ isOnboarding (app w') = false
         ∧ length (habits (app w')) = 5%nat
         ∧ tracker (app w') = ∅
         ∧ ∀ habitId day, cell (tracker (app w')) habitId day = false).
Proof.
  split.
  - intros w cu hs weekStart t0 Hc Hp Hy.
    destruct (loadHabitEntries_grid w cu hs weekStart t0 Hc Hp Hy)
      as (w' & rows & E & Hsub & Ht & _ & _).
    exists w'. split; [done|]. rewrite Ht. split; [apply gridOf_full|].
    intros h i day d Hh Hi Hd Hnone.
    assert (dateString (tza w) weekStart i = d) as Hdate
      by (unfold dateString; by rewrite Hd).
    rewrite gridOf_lookup, decide_True by (by apply list_elem_of_fmap_2).
    simpl. rewrite (rowOf_lookup _ _ _ _ _ Hi), Hdate. f_equal.
    unfold findEntry. simpl.
    destruct (list_find _ rows) as [[j e]|] eqn:Hfind; [|done].
    apply list_find_Some in Hfind as (Hj & Hmatch & _).
    exfalso. apply (Hnone e); [|done].
    apply Hsub. by eapply list_elem_of_lookup_2.
  - intros w u Hu Hc Hlen Hall.
    destruct (handleOnboardingSubmit_complete w u Hu Hc Hlen Hall)
      as (w' & newHabits & E & _ & _ & H5 & _ & _ & Hh & Ht & Ho).
    exists w'. rewrite Ht, Hh. repeat split; done.
Qed.

Lemma tracker_after_load_and_onboarding_witness :
  (∃ w',
     loadHabitEntries (Some Demo.alice) [Demo.run] "2024-01-01" Demo.world
     = (Normal tt, w')
     ∧ fullGrid [Demo.run] (tracker (app w')))
  ∧ (∃ w',
       handleOnboardingSubmit (Demo.onboarding Demo.typed) = (Normal tt, w')
       ∧ isOnboarding (app w') = false
       ∧ length (habits (app w')) = 5%nat
       ∧ tracker (app w') = ∅
       ∧ ∀ habitId day, cell (tracker (app w')) habitId day = false).
Proof.
  destruct tracker_after_load_and_onboarding as [Hload Hsubmit].
  split.
  - destruct (Hload Demo.world (Some Demo.alice) [Demo.run] "2024-01-01"
                    1704067200000)
      as (w' & E & Hfull & _).
    + constructor.
    + reflexivity.
    + vm_compute. split; discriminate.
    + exists w'. by split.
  - apply (Hsubmit (Demo.onboarding Demo.typed) Demo.alice);
      [reflexivity | constructor | reflexivity |].
    repeat (constructor; [by vm_compute|]). constructor.
Defined.

(** C5, as stated, fails right after onboarding: the component mounts over
    empty tables and finds no user, a user signs in, types five names and
    submits; onboarding is then complete, there are five habits, and the
    tracker has no key. *)
Lemma tracker_empty_after_onboarding :
  ∃ w,
    Reachable w
    ∧ isOnboarding (app w) = false
    ∧ length (habits (app w)) = 5%nat
    ∧ tracker (app w) = ∅
    ∧ ¬ fullGrid (habits (app w)) (tracker (app w)).
Proof.
  exists (after handleOnboardingSubmit
         (after (changeHabitInput 4 "Write")
         (after (changeHabitInput 3 "Stretch")
         (after (changeHabitInput 2 "Sleep")
         (after (changeHabitInput 1 "Read")
         (after (changeHabitInput 0 " Run ")
         (after (onAuthStateChange
                   (loadUserHabits (loadHabitEntries None)) (Some Demo.alice))
         (after (checkAuth (lift (Normal None))
                   (loadUserHabits (loadHabitEntries None)))
         (mounted Db.empty Demo.wednesday 0))))))))).
  match goal with |- _ ∧ _ ∧ _ ∧ tracker (app ?w0) = _ ∧ _ => set (w := w0) end.
  assert (Habit.id <$> habits (app w)
          = ["uuid-0"; "uuid-1"; "uuid-2"; "uuid-3"; "uuid-4"]) as Hids
    by (by vm_compute).
  assert (tracker (app w) = ∅) as Ht by (by vm_compute).
  split.
  { subst w. apply reach_submit.
    do 5 apply reach_input.
    apply reach_auth, reach_checkAuth, reach_mount. }
  split; [by vm_compute|].
  split; [by rewrite <- (length_fmap Habit.id), Hids|].
  split; [done|].
  intros [Hdom _].
  rewrite Hids, Ht, dom_empty_L in Hdom. set_solver.
Qed.

(** * Further properties of the component *)

(** ** Dates the component stores and reads back *)

Lemma parse_isoDate_day (z : Z) :
  firstDay ≤ z ≤ lastDay →
  JsDate.parse (JsDate.isoDate z) = Some (z * JsDate.msPerDay).
Proof. intros Hz. by apply parse_isoDate, year_of_day_range. Qed.

Lemma isoDate_inj (z z' : Z) :
  firstDay ≤ z ≤ lastDay → firstDay ≤ z' ≤ lastDay →
  JsDate.isoDate z = JsDate.isoDate z' → z = z'.
Proof.
  intros Hz Hz' E.
  pose proof (parse_isoDate_day z Hz) as P.
  rewrite E, (parse_isoDate_day z' Hz') in P.
  injection P. unfold JsDate.msPerDay. lia.
Qed.

(** The dates of the week's cells in a zone that never changes its clocks,
    for a week start as [getCurrentWeekStart] renders it and a week within
    the years 0 to 9999: the cell of the [i]-th day name is dated [i] days
    after the week start, Monday is dated by the week start itself, and
    different day names have different dates. *)
Theorem week_dates (offset day0 : Z) :
  firstDay ≤ day0 →
  day0 + 6 ≤ lastDay →
  let zone := JsDate.fixed offset in
  let weekStart := JsDate.isoDate day0 in
  dateOfDay zone weekStart (indexOf DAYS "Monday") = Normal weekStart
  ∧ (∀ i day, DAYS !! i = Some day →
       dateOfDay zone weekStart (indexOf DAYS day)
       = Normal (JsDate.isoDate (day0 + Z.of_nat i)))
  ∧ (∀ day day', day ∈ DAYS → day' ∈ DAYS → day ≠ day' →
       dateOfDay zone weekStart (indexOf DAYS day)
       ≠ dateOfDay zone weekStart (indexOf DAYS day')).
Proof.
  intros Hfirst Hlast zone weekStart.
  assert (JsDate.parse weekStart = Some (day0 * JsDate.msPerDay)) as Hp
    by (apply parse_isoDate_day; lia).
  assert (∀ i day, DAYS !! i = Some day →
            dateOfDay zone weekStart (indexOf DAYS day)
            = Normal (JsDate.isoDate (day0 + Z.of_nat i))) as Hdates.
  { intros i day Hi. subst zone.
    rewrite (indexOf_DAYS _ _ Hi), (dateOfDay_parsed _ _ _ _ Hp).
    by rewrite Day_of_days. }
  split; [|split].
  - rewrite (Hdates 0%nat "Monday") by done. by rewrite Z.add_0_r.
  - done.
  - intros day day' (i & Hi)%list_elem_of_lookup (j & Hj)%list_elem_of_lookup Hne.
    rewrite (Hdates _ _ Hi), (Hdates _ _ Hj). intros [= E].
    assert (i < 7 ∧ j < 7)%nat as [Hi7 Hj7].
    { split; [apply lookup_lt_Some in Hi|apply lookup_lt_Some in Hj]; done. }
    apply isoDate_inj in E; [|lia..].
    assert (i = j) as -> by lia. congruence.
Qed.

Lemma week_dates_witness :
  dateOfDay (JsDate.fixed 3600000) "2024-01-01" (indexOf DAYS "Monday")
  = Normal "2024-01-01"
  ∧ (∀ i day, DAYS !! i = Some day →
       dateOfDay (JsDate.fixed 3600000) "2024-01-01" (indexOf DAYS day)
       = Normal (JsDate.isoDate (19723 + Z.of_nat i)))
  ∧ (∀ day day', day ∈ DAYS → day' ∈ DAYS → day ≠ day' →
       dateOfDay (JsDate.fixed 3600000) "2024-01-01" (indexOf DAYS day)
       ≠ dateOfDay (JsDate.fixed 3600000) "2024-01-01" (indexOf DAYS day')).
Proof.
  apply (week_dates 3600000 19723); vm_compute; discriminate.
Defined.

(** In any zone the cell of the [i]-th day name is dated [i] days after
    the week start, or the day before that: where the clocks go forward
    within the week, the cells after the change are dated a day early. *)
Theorem week_dates_any_zone (zone : JsDate.Zone) (weekStart : string) (t0 : Z)
    (i : nat) (day : string) :
  JsDate.parse weekStart = Some t0 →
  DAYS !! i = Some day →
  dateOfDay zone weekStart (indexOf DAYS day)
  = Normal (JsDate.isoDate (JsDate.Day t0 + Z.of_nat i))
  ∨ dateOfDay zone weekStart (indexOf DAYS day)
    = Normal (JsDate.isoDate (JsDate.Day t0 + Z.of_nat i - 1)).
Proof.
  intros Hp Hi. rewrite (indexOf_DAYS _ _ Hi). by apply dateOfDay_near.
Qed.

Lemma week_dates_any_zone_witness :
  dateOfDay Demo.sydney "2024-09-30" (indexOf DAYS "Sunday")
  = Normal (JsDate.isoDate (JsDate.Day 1727654400000 + Z.of_nat 6))
  ∨ dateOfDay Demo.sydney "2024-09-30" (indexOf DAYS "Sunday")
    = Normal (JsDate.isoDate (JsDate.Day 1727654400000 + Z.of_nat 6 - 1)).
Proof.
  apply (week_dates_any_zone Demo.sydney "2024-09-30" 1727654400000 6 "Sunday");
    reflexivity.
Defined.

Lemma weekStart_parses (zone : JsDate.Zone) (today : Z) :
  firstDay + 6 ≤ JsDate.Day today ≤ lastDay →
  ∃ s monday,
    getCurrentWeekStart_at zone today = Normal s
    ∧ JsDate.parse s = Some (monday * JsDate.msPerDay)
    ∧ JsDate.Day today - 7 ≤ monday ≤ JsDate.Day today + 1.
Proof.
  intros Hrange.
  destruct (getCurrentWeekStart_at_day zone today) as (monday & Hs & Hm).
  exists (JsDate.isoDate monday), monday.
  split; [done|]. split; [apply parse_isoDate_around|]; lia.
Qed.

(** The week start that [getCurrentWeekStart] returns is a date the
    component can read back, whatever the zone: for a clock within the
    years 0 to 9999 it parses to the midnight of a day at most seven days
    before the current UTC day and at most one day after it. *)
Theorem getCurrentWeekStart_parses (zone : JsDate.Zone) (today : Z) :
  firstDay + 6 ≤ JsDate.Day today ≤ lastDay →
  ∃ s monday,
    getCurrentWeekStart_at zone today = Normal s
    ∧ JsDate.parse s = Some (monday * JsDate.msPerDay)
    ∧ JsDate.Day today - 7 ≤ monday ≤ JsDate.Day today + 1.
Proof. apply weekStart_parses. Qed.

Lemma getCurrentWeekStart_parses_witness :
  ∃ s monday,
    getCurrentWeekStart_at Demo.sydney 1727834400000 = Normal s
    ∧ JsDate.parse s = Some (monday * JsDate.msPerDay)
    ∧ JsDate.Day 1727834400000 - 7 ≤ monday ≤ JsDate.Day 1727834400000 + 1.
Proof.
  apply (getCurrentWeekStart_parses Demo.sydney 1727834400000).
  vm_compute. split; discriminate.
Defined.

(** Where the local calendar day is the UTC day and the clocks have not
    changed since the local Monday (as they never do in a zone of constant
    offset), [getCurrentWeekStart] returns the Monday on or before the
    current day; on a Sunday that is the Monday six days earlier, and the
    week that starts there ends on that Sunday. *)
Theorem getCurrentWeekStart_monday (zone : JsDate.Zone) (today : Z) :
  let lt := JsDate.LocalTime zone today in
  JsDate.Day lt = JsDate.Day today →
  JsDate.LocalTZA zone (lt - sinceMonday (JsDate.Day lt) * JsDate.msPerDay) false
  = JsDate.LocalTZA zone today true →
  ∃ monday,
    getCurrentWeekStart_at zone today = Normal (JsDate.isoDate monday)
    ∧ JsDate.WeekDay (monday * JsDate.msPerDay) = 1
    ∧ JsDate.Day today - 6 ≤ monday ≤ JsDate.Day today
    ∧ (JsDate.WeekDay lt = 0 →
       monday = JsDate.Day today - 6 ∧ monday + 6 = JsDate.Day today).
Proof.
  intros lt Hsame Hoff.
  exists (JsDate.Day today - sinceMonday (JsDate.Day today)).
  split.
  - rewrite getCurrentWeekStart_at_moved. fold lt.
    apply (f_equal (λ x, Normal (JsDate.isoDate x))).
    unfold JsDate.UTC.
    replace (lt + - sinceMonday (JsDate.Day lt) * JsDate.msPerDay)
      with (lt - sinceMonday (JsDate.Day lt) * JsDate.msPerDay) by lia.
    rewrite Hoff, Hsame. unfold lt, JsDate.LocalTime.
    replace (today + JsDate.LocalTZA zone today true
             - sinceMonday (JsDate.Day today) * JsDate.msPerDay
             - JsDate.LocalTZA zone today true)
      with (today + - sinceMonday (JsDate.Day today) * JsDate.msPerDay) by lia.
    rewrite Day_add_days. lia.
  - unfold JsDate.WeekDay. rewrite Hsame, Day_of_days.
    unfold sinceMonday.
    repeat split; try (Z.to_euclidean_division_equations; lia).
Qed.

Lemma getCurrentWeekStart_monday_witness :
  ∃ monday,
    getCurrentWeekStart_at Demo.sydney 1727834400000
    = Normal (JsDate.isoDate monday)
    ∧ JsDate.WeekDay (monday * JsDate.msPerDay) = 1
    ∧ JsDate.Day 1727834400000 - 6 ≤ monday ≤ JsDate.Day 1727834400000
    ∧ (JsDate.WeekDay (JsDate.LocalTime Demo.sydney 1727834400000) = 0 →
       monday = JsDate.Day 1727834400000 - 6
       ∧ monday + 6 = JsDate.Day 1727834400000).
Proof.
  apply (getCurrentWeekStart_monday Demo.sydney 1727834400000); reflexivity.
Defined.

(** ** What a click changes, and what it leaves alone *)

Lemma cell_insert_other (t : HabitTracker) h day v h' day' :
  (h', day') ≠ (h, day) →
  cell (<[h := <[day := v]> (default ∅ (t !! h))]> t) h' day' = cell t h' day'.
Proof.
  intros Hne. unfold cell.
  destruct (decide (h' = h)) as [->|Hh].
  - rewrite lookup_insert_eq. simpl.
    rewrite lookup_insert_ne by congruence.
    by destruct (t !! h).
  - by rewrite lookup_insert_ne.
Qed.

(** The shapes a world can have after [toggleHabit]: the local state is
    as before, or differs in the clicked cell only; the habits table is
    never touched. *)
Lemma toggleHabit_shape (w : World) (habitId day : string) :
  let w' := after (toggleHabit habitId day) w in
  (app w' = app w
   ∨ app w' = mkApp (user (app w)) (loading (app w)) (isOnboarding (app w))
                    (habits (app w))
                    (<[habitId := <[day := negb (cell (tracker (app w)) habitId day)]>
                                    (default ∅ (tracker (app w) !! habitId))]>
                       (tracker (app w)))
                    (weekStartDate (app w)) (habitInputs (app w)))
  ∧ Db.habits (db w') = Db.habits (db w)
  ∧ now w' = now w ∧ tza w' = tza w.
Proof.
  unfold after, toggleHabit, mbind, M_bind, render, timeZone, lift, try_catch.
  destruct (user (app w)) as [u|] eqn:Hu; [|by auto].
  destruct (dateOfDay _ _ _) as [d|]; [|by auto].
  destruct (cell (tracker (app w)) habitId day);
    unfold supabase.delete_entry, supabase.insert_entry, call;
    destruct (faults w) as [|[| |] rest]; cbn;
    try (destruct (Db.insert_entry _ _ _) as [resp db'] eqn:E;
         unfold Db.insert_entry in E; repeat (destruct (decide _)); simplify_eq/=);
    rewrite <- ?Hu; auto.
Qed.

(** A click changes no cell but the clicked one, whatever the store
    answers. *)
Theorem toggleHabit_other_cells (w : World) (habitId day habitId' day' : string) :
  (habitId', day') ≠ (habitId, day) →
  cell (tracker (app (after (toggleHabit habitId day) w))) habitId' day'
  = cell (tracker (app w)) habitId' day'.
Proof.
  intros Hne.
  destruct (toggleHabit_shape w habitId day) as ([-> | ->] & _); [done|].
  cbn [tracker]. by apply cell_insert_other.
Qed.

Lemma toggleHabit_other_cells_witness :
  cell (tracker (app (after (toggleHabit "h1" "Monday") Demo.world))) "h1" "Tuesday"
  = cell (tracker (app Demo.world)) "h1" "Tuesday".
Proof. apply (toggleHabit_other_cells Demo.world "h1" "Monday" "h1" "Tuesday"). discriminate. Defined.

(** A click never changes the user, the habit list, the onboarding flag,
    the week start or the input slots, and never touches the habits table. *)
Theorem toggleHabit_keeps_rest (w : World) (habitId day : string) :
  let w' := after (toggleHabit habitId day) w in
  user (app w') = user (app w)
  ∧ habits (app w') = habits (app w)
  ∧ isOnboarding (app w') = isOnboarding (app w)
  ∧ weekStartDate (app w') = weekStartDate (app w)
  ∧ habitInputs (app w') = habitInputs (app w)
  ∧ Db.habits (db w') = Db.habits (db w).
Proof.
  destruct (toggleHabit_shape w habitId day) as ([E | E] & Hh & _);
    cbv zeta; rewrite E; done.
Qed.



(** In the entries table a click touches the row of the clicked cell only:
    a row with another (habit, user, date) key is there afterwards exactly
    if it was there before, whatever the transport does. *)
Theorem toggleHabit_other_rows (w : World) (u : User.t) (habitId day d : string)
    (e : Entry.t) :
  user (app w) = Some u →
  dateOfDay (tza w) (weekStartDate (app w)) (indexOf DAYS day) = Normal d →
  ¬ Db.same_key habitId (User.id u) d e →
  e ∈ Db.habit_entries (db (after (toggleHabit habitId day) w))
  ↔ e ∈ Db.habit_entries (db w).
Proof.
  intros Hu Hd Hkey.
  unfold after, toggleHabit, mbind, M_bind, render, timeZone, lift, try_catch.
  rewrite Hu, Hd.
  destruct (cell (tracker (app w)) habitId day);
    unfold supabase.delete_entry, supabase.insert_entry, call;
    destruct (faults w) as [|[| |] rest]; cbn; try done;
    try (rewrite list_elem_of_filter; naive_solver);
    unfold Db.insert_entry; cbn; repeat (destruct (decide _)); cbn; try done;
    rewrite elem_of_app, list_elem_of_singleton;
    (split; [intros [?| ->]; [done|]|by left]);
    exfalso; apply Hkey; done.
Qed.

Lemma toggleHabit_other_rows_witness :
  let other := Entry.mk "e9" "h1" "u1" "2024-01-05" true 0 in
  let w := mkWorld Demo.tracking (Db.mk [Demo.run] [other] 0)
                   [] [] [] [] Demo.wednesday 0 in
  other ∈ Db.habit_entries (db (after (toggleHabit "h1" "Monday") w))
  ↔ other ∈ Db.habit_entries (db w).
Proof.
  apply (toggleHabit_other_rows _ Demo.alice "h1" "Monday" "2024-01-01");
    [reflexivity | reflexivity |].
  unfold Db.same_key. simpl. intros (_ & _ & E). discriminate E.
Defined.

(** ** Loads that fail *)

(** When the select of the entries fails, in the response or by a rejected
    promise, [loadHabitEntries] logs the error and keeps the tracker it
    had; the request was the only thing sent. *)
Theorem loadHabitEntries_failed_select (w : World) closureUser hs weekStart t0
    (f : Fault) (rest : list Fault) :
  JsDate.parse weekStart = Some t0 →
  faults w = f :: rest →
  f ≠ NoFault →
  ∃ w',
    loadHabitEntries closureUser hs weekStart w = (Normal tt, w')
    ∧ app w' = app w
    ∧ db w' = db w
    ∧ length (issued w') = S (length (issued w))
    ∧ console w' = console w ++ ["Error loading habit entries:"].
Proof.
  intros Hp Hf Hne.
  unfold loadHabitEntries, try_catch, mbind, M_bind, timeZone, lift.
  rewrite Hp, setDate_getDate. cbn [JsDateIso.toISODate].
  unfold supabase.select_entries, call. rewrite Hf.
  destruct f; [done| |]; cbn; eexists; (split; [reflexivity|]); cbn;
    by rewrite length_app, Nat.add_1_r.
Qed.

Lemma loadHabitEntries_failed_select_witness :
  ∃ w',
    loadHabitEntries (Some Demo.alice) [Demo.run] "2024-01-01"
      (mkWorld Demo.tracking (Db.mk [Demo.run] [] 0) [] [] []
               [ResolvesWithError "permission denied"] Demo.wednesday 0)
    = (Normal tt, w')
    ∧ app w' = Demo.tracking
    ∧ db w' = Db.mk [Demo.run] [] 0
    ∧ length (issued w') = 1%nat
    ∧ console w' = ["Error loading habit entries:"].
Proof.
  apply (loadHabitEntries_failed_select
           (mkWorld Demo.tracking (Db.mk [Demo.run] [] 0) [] [] []
                    [ResolvesWithError "permission denied"] Demo.wednesday 0)
           (Some Demo.alice) [Demo.run] "2024-01-01" 1704067200000
           (ResolvesWithError "permission denied") []);
    [reflexivity | reflexivity | discriminate].
Defined.

(** ** Mutations that fail *)

(** When the insert of the habits fails, in the response or by a rejected
    promise, [handleOnboardingSubmit] logs the error and alerts the user;
    the state (onboarding flag, habit list, tracker, input slots) and the
    tables stay as they were. *)
Theorem handleOnboardingSubmit_failed_insert (w : World) (u : User.t)
    (f : Fault) (rest : list Fault) :
  user (app w) = Some u →
  length (filter (λ s, Js.trim s ≠ "") (habitInputs (app w))) = 5%nat →
  faults w = f :: rest →
  f ≠ NoFault →
  ∃ w',
    handleOnboardingSubmit w = (Normal tt, w')
    ∧ app w' = app w
    ∧ db w' = db w
    ∧ console w' = console w ++ ["Error creating habits:"]
    ∧ alerts w' = alerts w ++ ["Error creating habits. Please try again."].
Proof.
  intros Hu Hlen Hf Hne.
  unfold handleOnboardingSubmit, mbind, M_bind, render, try_catch.
  rewrite Hu, decide_True by done.
  unfold supabase.insert_habits, call. rewrite Hf.
  destruct f; [done| |]; cbn; eexists; (split; [reflexivity|]); done.
Qed.

Lemma handleOnboardingSubmit_failed_insert_witness :
  ∃ w',
    handleOnboardingSubmit
      (mkWorld (app (Demo.onboarding Demo.typed)) Db.empty [] [] [] [Rejects]
               Demo.wednesday 0)
    = (Normal tt, w')
    ∧ app w' = app (Demo.onboarding Demo.typed)
    ∧ db w' = Db.empty
    ∧ console w' = ["Error creating habits:"]
    ∧ alerts w' = ["Error creating habits. Please try again."].
Proof.
  apply (handleOnboardingSubmit_failed_insert
           (mkWorld (app (Demo.onboarding Demo.typed)) Db.empty [] [] [] [Rejects]
                    Demo.wednesday 0)
           Demo.alice Rejects []);
    [reflexivity | by vm_compute | reflexivity | discriminate].
Defined.

(** When the delete of the entries is rejected, [resetWeek] stops there:
    the delete of the habits is never issued, the error is logged, and the
    local state and the tables stay as they were. *)
Theorem resetWeek_rejected_first (w : World) (u : User.t) (rest : list Fault) :
  user (app w) = Some u →
  faults w = Rejects :: rest →
  resetWeek w
  = (Normal tt,
     mkWorld (app w) (db w) (issued w ++ [DeleteEntriesOfUser (User.id u)])
             (console w ++ ["Error resetting data:"]) (alerts w) rest
             (now w) (tza w)).
Proof.
  intros Hu Hf.
  unfold resetWeek, mbind, M_bind, render, try_catch.
  rewrite Hu. unfold supabase.delete_entries_of_user, call. by rewrite Hf.
Qed.

Lemma resetWeek_rejected_first_witness :
  resetWeek (mkWorld Demo.tracking (Db.mk [Demo.run] [] 0) [] [] [] [Rejects]
                     Demo.wednesday 0)
  = (Normal tt,
     mkWorld Demo.tracking (Db.mk [Demo.run] [] 0) [DeleteEntriesOfUser "u1"]
             ["Error resetting data:"] [] [] Demo.wednesday 0).
Proof.
  apply (resetWeek_rejected_first
           (mkWorld Demo.tracking (Db.mk [Demo.run] [] 0) [] [] [] [Rejects]
                    Demo.wednesday 0) Demo.alice []); reflexivity.
Defined.

(** [resetWeek] is not atomic: when the entries are deleted and the delete
    of the habits is then rejected, the user's entries are gone from the
    tables while the habits remain, and the component still shows the
    state it had, tracker included. *)
Theorem resetWeek_rejected_second (w : World) (u : User.t) (rest : list Fault) :
  user (app w) = Some u →
  faults w = NoFault :: Rejects :: rest →
  ∃ w',
    resetWeek w = (Normal tt, w')
    ∧ app w' = app w
    ∧ Db.habits (db w') = Db.habits (db w)
    ∧ Db.habit_entries (db w')
      = filter (λ e, Entry.user_id e ≠ User.id u) (Db.habit_entries (db w))
    ∧ console w' = console w ++ ["Error resetting data:"].
Proof.
  intros Hu Hf.
  unfold resetWeek, mbind, M_bind, render, try_catch.
  rewrite Hu. unfold supabase.delete_entries_of_user, supabase.delete_habits_of_user, call.
  rewrite Hf. cbn. eexists. split; [reflexivity|]. done.
Qed.

Lemma resetWeek_rejected_second_witness :
  ∃ w',
    resetWeek (mkWorld Demo.tracking
                 (Db.mk [Demo.run] [Entry.mk "e1" "h1" "u1" "2024-01-01" true 0] 1)
                 [] [] [] [NoFault; Rejects] Demo.wednesday 0)
    = (Normal tt, w')
    ∧ app w' = Demo.tracking
    ∧ Db.habits (db w') = [Demo.run]
    ∧ Db.habit_entries (db w') = []
    ∧ console w' = ["Error resetting data:"].
Proof.
  apply (resetWeek_rejected_second
           (mkWorld Demo.tracking
              (Db.mk [Demo.run] [Entry.mk "e1" "h1" "u1" "2024-01-01" true 0] 1)
              [] [] [] [NoFault; Rejects] Demo.wednesday 0) Demo.alice []);
    reflexivity.
Defined.

(** [resetWeek] removes no habit of another user, whatever the transport
    does, and no entry that is neither the user's own nor an entry of one
    of the user's habits. *)
Theorem resetWeek_other_users (w : World) (u : User.t) :
  user (app w) = Some u →
  let w' := after resetWeek w in
  (∀ h, h ∈ Db.habits (db w) → Habit.user_id h ≠ User.id u →
        h ∈ Db.habits (db w'))
  ∧ (∀ e, e ∈ Db.habit_entries (db w) →
          Entry.user_id e ≠ User.id u →
          (∀ h, h ∈ Db.habits (db w) → Habit.user_id h = User.id u →
                Entry.habit_id e ≠ Habit.id h) →
          e ∈ Db.habit_entries (db w')).
Proof.
  intros Hu.
  unfold after, resetWeek, mbind, M_bind, render, try_catch.
  rewrite Hu. unfold supabase.delete_entries_of_user, supabase.delete_habits_of_user, call.
  destruct (faults w) as [|[| |] [|[| |] rest]]; cbn; split; try done;
    try (intros h Hh Hne; apply list_elem_of_filter; done);
    intros e He Hne Hfk;
    rewrite ?list_elem_of_filter; repeat split; try done;
    intros (h & Eh & [Hh1 Hh2]%list_elem_of_filter)%list_elem_of_fmap;
    by apply (Hfk h).
Qed.

Lemma resetWeek_other_users_witness :
  let bob := Habit.mk "h7" "Swim" "u2" 0 in
  let w := mkWorld Demo.tracking (Db.mk [Demo.run; bob] [] 0) [] [] [] []
                   Demo.wednesday 0 in
  let w' := after resetWeek w in
  (∀ h, h ∈ Db.habits (db w) → Habit.user_id h ≠ "u1" → h ∈ Db.habits (db w'))
  ∧ (∀ e, e ∈ Db.habit_entries (db w) →
          Entry.user_id e ≠ "u1" →
          (∀ h, h ∈ Db.habits (db w) → Habit.user_id h = "u1" →
                Entry.habit_id e ≠ Habit.id h) →
          e ∈ Db.habit_entries (db w')).
Proof.
  apply (resetWeek_other_users
           (mkWorld Demo.tracking
                    (Db.mk [Demo.run; Habit.mk "h7" "Swim" "u2" 0] [] 0)
                    [] [] [] [] Demo.wednesday 0) Demo.alice).
  reflexivity.
Defined.

(** ** Signing in *)

Lemma insert_by_created_at_perm h l : Db.insert_by_created_at h l ≡ₚ h :: l.
Proof.
  induction l as [|x l IH]; simpl; [done|].
  destruct (_ <? _); [done|]. by rewrite IH, Permutation_swap.
Qed.

Lemma order_by_created_at_perm l : Db.order_by_created_at l ≡ₚ l.
Proof.
  unfold Db.order_by_created_at.
  assert (∀ acc, foldl (λ acc h, Db.insert_by_created_at h acc) acc l ≡ₚ acc ++ l)
    as H; [|apply (H [])].
  induction l as [|x l IH]; intros acc; simpl.
  - by rewrite app_nil_r.
  - rewrite IH, insert_by_created_at_perm. simpl. apply Permutation_middle.
Qed.

Lemma insert_by_created_at_sorted h l :
  StronglySorted byCreation l →
  StronglySorted byCreation (Db.insert_by_created_at h l).
Proof.
  induction 1 as [|x l Hl IH Hx]; simpl.
  - repeat constructor.
  - destruct (Habit.created_at h <? Habit.created_at x) eqn:E.
    + apply Z.ltb_lt in E. constructor; [by constructor|].
      constructor; [unfold byCreation; lia|].
      eapply Forall_impl; [exact Hx|]. unfold byCreation. intros; lia.
    + apply Z.ltb_ge in E. constructor; [done|].
      rewrite insert_by_created_at_perm. by constructor.
Qed.

Lemma order_by_created_at_sorted l :
  StronglySorted byCreation (Db.order_by_created_at l).
Proof.
  unfold Db.order_by_created_at.
  assert (∀ acc, StronglySorted byCreation acc →
            StronglySorted byCreation
              (foldl (λ acc h, Db.insert_by_created_at h acc) acc l)) as H.
  { induction l as [|x l IH]; intros acc Hacc; simpl; [done|].
    by apply IH, insert_by_created_at_sorted. }
  apply H. constructor.
Qed.

Lemma calm_same_faults w w' : faults w' = faults w → calm w → calm w'.
Proof. unfold calm. by intros ->. Qed.

Lemma filter_none {A} (P : A → Prop) `{∀ x, Decision (P x)} (l : list A) :
  (∀ x, x ∈ l → ¬ P x) → filter P l = [].
Proof.
  induction l as [|x l IH]; intros Hl; [done|].
  rewrite filter_cons_False by (apply Hl, list_elem_of_here).
  apply IH. intros y Hy. by apply Hl, list_elem_of_further.
Qed.

(** A user without habits signs in: one select is sent, the component
    asks for the five habits (onboarding) and stores the current week
    start; the habit list, the tracker and the input slots are not
    touched. *)
Theorem signIn_without_habits (w : World) (u : User.t)
    (loadEntries : list Habit.t → string → M unit) :
  calm w →
  (∀ h, h ∈ Db.habits (db w) → Habit.user_id h ≠ User.id u) →
  ∃ w',
    onAuthStateChange (loadUserHabits loadEntries) (Some u) w = (Normal tt, w')
    ∧ user (app w') = Some u
    ∧ isOnboarding (app w') = true
    ∧ getCurrentWeekStart_at (tza w) (now w) = Normal (weekStartDate (app w'))
    ∧ habits (app w') = habits (app w)
    ∧ tracker (app w') = tracker (app w)
    ∧ habitInputs (app w') = habitInputs (app w)
    ∧ issued w' = issued w ++ [SelectHabits (User.id u)]
    ∧ db w' = db w.
Proof.
  intros Hc Hnone.
  unfold onAuthStateChange, loadUserHabits, mbind, M_bind, try_catch.
  unfold setUser at 1, update at 1. cbn [fst snd].
  unfold supabase.select_habits.
  rewrite call_calm by (by eapply calm_same_faults).
  unfold Db.select_habits. cbn [fst snd error data Db.ok db now].
  rewrite (filter_none _ _ Hnone).
  cbn [Db.order_by_created_at foldl].
  unfold getCurrentWeekStart, mbind, M_bind, timeZone, Date_now, lift.
  cbn [setIsOnboarding update tza now].
  destruct (getCurrentWeekStart_at_returns (tza w) (now w)) as [s Hs].
  rewrite Hs. eexists. split; [reflexivity|]. cbn. done.
Qed.

Lemma signIn_without_habits_witness :
  ∃ w',
    onAuthStateChange (loadUserHabits (loadHabitEntries None)) (Some Demo.alice)
      (mounted Db.empty Demo.wednesday 0)
    = (Normal tt, w')
    ∧ user (app w') = Some Demo.alice
    ∧ isOnboarding (app w') = true
    ∧ getCurrentWeekStart_at 0 Demo.wednesday = Normal (weekStartDate (app w'))
    ∧ habits (app w') = []
    ∧ tracker (app w') = ∅
    ∧ habitInputs (app w') = [""; ""; ""; ""; ""]
    ∧ issued w' = [SelectHabits "u1"]
    ∧ db w' = Db.empty.
Proof.
  apply (signIn_without_habits (mounted Db.empty Demo.wednesday 0) Demo.alice
                               (loadHabitEntries None)).
  - constructor.
  - intros h Hh. by apply elem_of_nil in Hh.
Defined.

(** The whole world after a load that goes through. *)
Lemma loadHabitEntries_world (w : World) closureUser hs weekStart t0 :
  calm w →
  JsDate.parse weekStart = Some t0 →
  firstDay - 1 ≤ JsDate.Day t0 + 5 →
  JsDate.Day t0 + 6 ≤ lastDay + 1 →
  let uid := from_option User.id "undefined" closureUser in
  let hi :=
    JsDate.isoDate
      (JsDate.Day (JsDate.UTC (tza w) (JsDate.LocalTime (tza w) t0
                                       + 6 * JsDate.msPerDay))) in
  loadHabitEntries closureUser hs weekStart w
  = (Normal tt,
     mkWorld
       (mkApp (user (app w)) (loading (app w)) (isOnboarding (app w))
              (habits (app w))
              (gridOf (Some (filter (λ e, Entry.user_id e = uid
                                          ∧ Db.date_le weekStart (Entry.date e)
                                          ∧ Db.date_le (Entry.date e) hi)
                                    (Db.habit_entries (db w))))
                      (dateString (tza w) weekStart) hs ∅)
              (weekStartDate (app w)) (habitInputs (app w)))
       (db w) (issued w ++ [SelectEntries uid weekStart hi]) (console w)
       (alerts w) (tail (faults w)) (now w) (tza w)).
Proof.
  intros Hc Hp Hlow Hhigh uid hi.
  destruct (weekEnd_parses (tza w) _ _ Hp Hlow Hhigh) as [t6 H6].
  unfold loadHabitEntries, try_catch, mbind, M_bind, timeZone, lift.
  rewrite Hp, setDate_getDate. cbn [JsDateIso.toISODate].
  unfold supabase.select_entries. rewrite (call_calm _ _ w Hc).
  unfold Db.select_entries. rewrite Hp, H6.
  cbn [fst snd error data Db.ok tza].
  rewrite (buildTracker_grid _ _ _ _ _ Hp).
  reflexivity.
Qed.

(** A user with habits signs in (clock within the years 0 to 9999): the
    component leaves onboarding, lists exactly the user's habits, oldest
    first, stores the current week start, and shows a tracker with one row
    of seven days per habit; nothing is logged. *)
Theorem signIn_with_habits (w : World) (u : User.t) (closureUser : option User.t) :
  calm w →
  (∃ h, h ∈ Db.habits (db w) ∧ Habit.user_id h = User.id u) →
  firstDay + 6 ≤ JsDate.Day (now w) ≤ lastDay - 6 →
  ∃ w',
    onAuthStateChange (loadUserHabits (loadHabitEntries closureUser)) (Some u) w
    = (Normal tt, w')
    ∧ user (app w') = Some u
    ∧ isOnboarding (app w') = false
    ∧ habits (app w')
      ≡ₚ filter (λ h, Habit.user_id h = User.id u) (Db.habits (db w))
    ∧ StronglySorted byCreation (habits (app w'))
    ∧ getCurrentWeekStart_at (tza w) (now w) = Normal (weekStartDate (app w'))
    ∧ fullGrid (habits (app w')) (tracker (app w'))
    ∧ console w' = console w
    ∧ db w' = db w.
Proof.
  intros Hc (h0 & Hh0 & Hu0) Hclock.
  unfold onAuthStateChange, loadUserHabits, mbind, M_bind, try_catch.
  unfold setUser at 1, update at 1. cbn [fst snd].
  unfold supabase.select_habits.
  rewrite call_calm by (by eapply calm_same_faults).
  unfold Db.select_habits. cbn [fst snd error data Db.ok db now].
  set (mine := filter (λ h, Habit.user_id h = User.id u) (Db.habits (db w))).
  pose proof (order_by_created_at_perm mine) as Hperm.
  pose proof (order_by_created_at_sorted mine) as Hsorted.
  destruct (Db.order_by_created_at mine) as [|h hs] eqn:Hrows.
  { apply Permutation_nil_l in Hperm.
    assert (h0 ∈ mine) as Hin by (by apply list_elem_of_filter).
    rewrite <- Hperm in Hin. by apply elem_of_nil in Hin. }
  unfold getCurrentWeekStart, mbind, M_bind, timeZone, Date_now, lift.
  cbn [setHabits setIsOnboarding update tza now].
  destruct (weekStart_parses (tza w) (now w)) as (s & monday & Hs & Hp & Hm);
    [lia|].
  rewrite Hs. cbn [setWeekStartDate update].
  rewrite (loadHabitEntries_world _ _ _ _ _ (calm_after_call w _ _ _ _ _ Hc) Hp)
    by (rewrite Day_of_days; lia).
  eexists. split; [reflexivity|].
  cbn [app user isOnboarding habits tracker weekStartDate console db].
  split; [reflexivity|]. split; [reflexivity|].
  split; [exact Hperm|]. split; [exact Hsorted|].
  split; [reflexivity|]. split; [apply gridOf_full|].
  split; reflexivity.
Qed.

Lemma signIn_with_habits_witness :
  ∃ w',
    onAuthStateChange (loadUserHabits (loadHabitEntries None)) (Some Demo.alice)
      (mounted (Db.mk [Demo.run] [] 0) Demo.wednesday 0)
    = (Normal tt, w')
    ∧ user (app w') = Some Demo.alice
    ∧ isOnboarding (app w') = false
    ∧ habits (app w') ≡ₚ [Demo.run]
    ∧ StronglySorted byCreation (habits (app w'))
    ∧ getCurrentWeekStart_at 0 Demo.wednesday = Normal (weekStartDate (app w'))
    ∧ fullGrid (habits (app w')) (tracker (app w'))
    ∧ console w' = []
    ∧ db w' = Db.mk [Demo.run] [] 0.
Proof.
  apply (signIn_with_habits (mounted (Db.mk [Demo.run] [] 0) Demo.wednesday 0)
                            Demo.alice None).
  - constructor.
  - exists Demo.run. split; [apply list_elem_of_here|reflexivity].
  - vm_compute. split; discriminate.
Defined.

(** When the select of the habits fails, in the response or by a rejected
    promise, [loadUserHabits] logs the error and changes nothing else: the
    onboarding flag, the habit list and the week start stay as they were,
    and the entries are not asked for. *)
Theorem loadUserHabits_failed_select (w : World)
    (loadEntries : list Habit.t → string → M unit) (userId : string)
    (f : Fault) (rest : list Fault) :
  faults w = f :: rest →
  f ≠ NoFault →
  loadUserHabits loadEntries userId w
  = (Normal tt,
     mkWorld (app w) (db w) (issued w ++ [SelectHabits userId])
             (console w ++ ["Error loading habits:"]) (alerts w) rest
             (now w) (tza w)).
Proof.
  intros Hf Hne.
  unfold loadUserHabits, try_catch, mbind, M_bind.
  unfold supabase.select_habits, call. rewrite Hf.
  by destruct f.
Qed.

Lemma loadUserHabits_failed_select_witness :
  loadUserHabits (loadHabitEntries None) "u1"
    (mkWorld initialState (Db.mk [Demo.run] [] 0) [] [] [] [Rejects]
             Demo.wednesday 0)
  = (Normal tt,
     mkWorld initialState (Db.mk [Demo.run] [] 0) [SelectHabits "u1"]
             ["Error loading habits:"] [] [] Demo.wednesday 0).
Proof.
  apply (loadUserHabits_failed_select
           (mkWorld initialState (Db.mk [Demo.run] [] 0) [] [] [] [Rejects]
                    Demo.wednesday 0)
           (loadHabitEntries None) "u1" Rejects []);
    [reflexivity | discriminate].
Defined.

(** ** Mounting *)

(** Whatever the auth provider answers and whatever the load of the habits
    does, [checkAuth] returns normally and ends with [loading] false; the
    loading screen is never left on. *)
Theorem checkAuth_ends_loading (getUser : M (option User.t))
    (loadHabits : string → M unit) (w : World) :
  ∃ w',
    checkAuth getUser loadHabits w = (Normal tt, w')
    ∧ loading (app w') = false
    ∧ view (app w') ≠ LoadingView.
Proof.
  assert (∃ w', checkAuth getUser loadHabits w = (Normal tt, w')
                ∧ loading (app w') = false) as (w' & E & Hl).
  { unfold checkAuth, try_catch_finally, try_catch, mbind, M_bind.
    destruct (getUser w) as [[[u|]|e] w1].
    - cbn [setUser update fst snd].
      destruct (loadHabits _ _) as [[[]|e] w2]; eexists; split; reflexivity.
    - eexists; split; reflexivity.
    - eexists; split; reflexivity. }
  exists w'. split; [done|]. split; [done|].
  unfold view. rewrite Hl. by repeat case_match.
Qed.

(** ** What every state between events satisfies *)











(** ** The summary cards and the export *)

Ltac each_cell st h :=
  destruct (cell (tracker st) (Habit.id h) "Monday"),
           (cell (tracker st) (Habit.id h) "Tuesday"),
           (cell (tracker st) (Habit.id h) "Wednesday"),
           (cell (tracker st) (Habit.id h) "Thursday"),
           (cell (tracker st) (Habit.id h) "Friday"),
           (cell (tracker st) (Habit.id h) "Saturday"),
           (cell (tracker st) (Habit.id h) "Sunday").

(** A card shows between 0 and 7 completed days and between 0 and 100
    percent; it shows 100 exactly for seven days and 0 exactly for none. *)
Theorem habitSummary_range (st : AppState) (h : Habit.t) :
  0 ≤ (habitSummary st h).1 ≤ 7
  ∧ 0 ≤ (habitSummary st h).2 ≤ 100
  ∧ ((habitSummary st h).2 = 100 ↔ (habitSummary st h).1 = 7)
  ∧ ((habitSummary st h).2 = 0 ↔ (habitSummary st h).1 = 0).
Proof.
  unfold habitSummary, DAYS. cbn [fst snd foldl].
  each_cell st h; vm_compute; repeat split; intros; congruence.
Qed.

Lemma occurrences_app c s1 s2 :
  occurrences c (s1 +:+ s2) = (occurrences c s1 + occurrences c s2)%nat.
Proof.
  induction s1 as [|x s1 IH]; [done|].
  change (String x s1 +:+ s2) with (String x (s1 +:+ s2)).
  cbn [occurrences]. rewrite IH. lia.
Qed.

Lemma join_cons sep x y l :
  Js.join sep (x :: y :: l) = x +:+ sep +:+ Js.join sep (y :: l).
Proof. reflexivity. Qed.

(** The row of a habit is its name followed by nine more fields. *)
Lemma summaryRow_tail st h :
  ∃ tail,
    summaryRow st h = Habit.name h +:+ tail
    ∧ occurrences comma tail = 9%nat
    ∧ occurrences lineFeed tail = 0%nat.
Proof.
  unfold summaryRow, habitSummary, DAYS. cbn [fst snd foldl fmap list_fmap].
  simpl (_ ++ _).
  each_cell st h; (eexists; split; [reflexivity|]; vm_compute; done).
Qed.

Lemma occurrences_join_rows c (header : string) (rows : list string) :
  occurrences c (Js.join newline (header :: rows))
  = (occurrences c header
     + foldr (λ row acc, occurrences c newline + occurrences c row + acc) 0 rows)%nat.
Proof.
  revert header. induction rows as [|row rows IH]; intros header.
  - simpl. lia.
  - rewrite join_cons, !occurrences_app, IH. simpl. lia.
Qed.

Lemma downloadStats_rows st :
  content (downloadStats st)
  = Js.join newline (csvHeader :: (summaryRow st <$> habits st)).
Proof.
  unfold downloadStats. cbn [content].
  rewrite <- list_fmap_compose.
  apply (f_equal (λ rows, Js.join newline (csvHeader :: rows))).
  apply list_fmap_ext. intros _ h _. apply csvRow_statOf.
Qed.

Lemma rows_line_feeds st (hs : list Habit.t) :
  (∀ h, h ∈ hs → occurrences lineFeed (Habit.name h) = 0%nat) →
  foldr (λ row acc, occurrences lineFeed newline + occurrences lineFeed row + acc)%nat
        0%nat (summaryRow st <$> hs)
  = length hs.
Proof.
  induction hs as [|h hs IH]; intros Hnames; [done|].
  cbn [fmap list_fmap foldr length].
  destruct (summaryRow_tail st h) as (tail & -> & _ & Hl).
  rewrite occurrences_app, Hl, (Hnames h) by apply list_elem_of_here.
  change (foldr _ 0%nat (list_fmap _ _ (summaryRow st) hs))
    with (foldr (λ row acc, occurrences lineFeed newline
                            + occurrences lineFeed row + acc)%nat
                0%nat (summaryRow st <$> hs)).
  rewrite IH by (intros h' Hh'; by apply Hnames, list_elem_of_further).
  change (occurrences lineFeed newline) with 1%nat. lia.
Qed.

(** The shape of the exported file: a row has nine commas besides those of
    the habit's name, so ten fields when the name has no comma; and when no
    name has a line feed, the text has exactly one line feed per habit,
    that is one line per habit after the header. *)
Theorem export_shape (st : AppState) :
  occurrences comma csvHeader = 9%nat
  ∧ (∀ h, occurrences comma (summaryRow st h)
          = (occurrences comma (Habit.name h) + 9)%nat)
  ∧ ((∀ h, h ∈ habits st → occurrences lineFeed (Habit.name h) = 0%nat) →
     occurrences lineFeed (content (downloadStats st)) = length (habits st)).
Proof.
  split; [by vm_compute|]. split.
  - intros h. destruct (summaryRow_tail st h) as (tail & -> & Hc & _).
    rewrite occurrences_app. lia.
  - intros Hnames.
    rewrite downloadStats_rows, occurrences_join_rows, rows_line_feeds by done.
    by vm_compute.
Qed.

(** ** The header figure and the cards *)




(** ** The Start Tracking button *)

(** The button and the handler agree: with a user, a disabled button means
    that [handleOnboardingSubmit] would do nothing at all, and an enabled
    one that it sends the insert of the five trimmed names. *)
Theorem start_button_agrees (w : World) (u : User.t) :
  user (app w) = Some u →
  (startDisabled (app w) = true → handleOnboardingSubmit w = (Normal tt, w))
  ∧ (startDisabled (app w) = false →
     issued (after handleOnboardingSubmit w)
     = issued w ++
         [InsertHabits ((λ s, HabitInsert.mk (User.id u) (Js.trim s))
                          <$> filter (λ s, Js.trim s ≠ "") (habitInputs (app w)))]
     ∧ length (filter (λ s, Js.trim s ≠ "") (habitInputs (app w))) = 5%nat).
Proof.
  intros Hu. unfold startDisabled. split.
  - intros Hd%bool_decide_eq_true. by apply handleOnboardingSubmit_incomplete.
  - intros Hd%bool_decide_eq_false. apply dec_stable in Hd.
    split; [|done].
    unfold after, handleOnboardingSubmit, mbind, M_bind, render, try_catch.
    rewrite Hu, decide_True by done.
    unfold supabase.insert_habits, call.
    unfold getCurrentWeekStart, mbind, M_bind, timeZone, Date_now, lift.
    destruct (faults w) as [|[| |] rest]; cbn; try done;
      by destruct (getCurrentWeekStart_at_returns (tza w) (now w)) as [s ->].
Qed.

Lemma start_button_agrees_witness :
  handleOnboardingSubmit (Demo.onboarding ["Run"; " "; ""; ""; ""])
  = (Normal tt, Demo.onboarding ["Run"; " "; ""; ""; ""]).
Proof.
  destruct (start_button_agrees (Demo.onboarding ["Run"; " "; ""; ""; ""]) Demo.alice)
    as [Hdisabled _]; [reflexivity|].
  apply Hdisabled. by vm_compute.
Defined.

(** ** Instances *)

Lemma toggleHabit_rejected_keeps_tracker_witness :
  let w := mkWorld Demo.tracking (Db.mk [Demo.run] [] 0) [] [] [] [Rejects]
                   Demo.wednesday 0 in
  let w' := after (toggleHabit "h1" "Monday") w in
  app w' = app w
  ∧ db w' = db w
  ∧ console w' = console w ++ ["Error toggling habit:"].
Proof.
  apply (toggleHabit_rejected_keeps_tracker
           (mkWorld Demo.tracking (Db.mk [Demo.run] [] 0) [] [] [] [Rejects]
                    Demo.wednesday 0)
           Demo.alice "h1" "Monday" 1704067200000 []); reflexivity.
Defined.

Lemma export_shape_witness :
  occurrences lineFeed (content (downloadStats Demo.tracking)) = 1%nat.
Proof.
  destruct (export_shape Demo.tracking) as (_ & _ & Hlines).
  apply Hlines. intros h Hh. apply list_elem_of_singleton in Hh as ->.
  reflexivity.
Defined.
